(** * data_generatot.py: the sample-data generator, embedded and verified

    The script builds four lists of dictionaries (customers, products,
    orders, order items) from draws of [random] and of [Faker], then writes
    each list with [json.dump] and a [default] hook, [custom_serializer].

    The embedding keeps the script's shape: each [for] loop is a monadic
    iteration over the same range, every dictionary is a finite map from
    string keys to Python values, the random module and Faker are tapes read
    through a cursor, and anything that can raise ([IndexError], [KeyError],
    [OverflowError], [TypeError], [ValueError]) does so in an error monad. *)

From Stdlib Require Import ZArith Lia List Ascii String Bool Sorted.
From stdpp Require Import base option list numbers strings pretty sorting
  gmap fin_maps.

Set Warnings "-register-all".

Local Open Scope string_scope.
Local Open Scope list_scope.
Local Open Scope Z_scope.

(** ** Exceptions and results *)

Inductive exn : Type :=
| TypeError (msg : string)
| IndexError (msg : string)
| KeyError (key : string)
| ValueError (msg : string)
| AttributeError (msg : string)
| OverflowError (msg : string).

Inductive result (A : Type) : Type :=
| Ok (a : A)
| Raise (e : exn).
Arguments Ok {A} a.
Arguments Raise {A} e.

(** ** The parts of [datetime] the script uses

    Naive datetimes (no tzinfo), as CPython's [datetime] module computes
    them: a proleptic Gregorian date with a time of day, ordinals counted
    from 0001-01-01 = 1, durations normalised to days, seconds and
    microseconds. *)

Module Datetime.

Record datetime : Type := mkDatetime {
  year : Z; month : Z; day : Z;
  hour : Z; minute : Z; second : Z; microsecond : Z
}.

(** [timedelta], already normalised: [0 <= td_seconds < 86400] and
    [0 <= td_microseconds < 1000000]. *)
Record timedelta : Type := mkTimedelta {
  td_days : Z; td_seconds : Z; td_microseconds : Z
}.

Definition MAXORDINAL : Z := 3652059.

Definition is_leap (y : Z) : bool :=
  (y mod 4 =? 0) && (negb (y mod 100 =? 0) || (y mod 400 =? 0)).

Definition DAYS_IN_MONTH : list Z :=
  [-1; 31; 28; 31; 30; 31; 30; 31; 31; 30; 31; 30; 31].

Definition DAYS_BEFORE_MONTH : list Z :=
  [-1; 0; 31; 59; 90; 120; 151; 181; 212; 243; 273; 304; 334].

Definition tbl (t : list Z) (i : Z) : Z := nth (Z.to_nat i) t 0.

Definition days_before_year (y : Z) : Z :=
  let p := y - 1 in p * 365 + p / 4 - p / 100 + p / 400.

Definition days_in_month (y m : Z) : Z :=
  if (m =? 2) && is_leap y then 29 else tbl DAYS_IN_MONTH m.

Definition days_before_month (y m : Z) : Z :=
  tbl DAYS_BEFORE_MONTH m + (if (2 <? m) && is_leap y then 1 else 0).

Definition ymd2ord (y m d : Z) : Z :=
  days_before_year y + days_before_month y m + d.

Definition DI400Y : Z := 146097.
Definition DI100Y : Z := 36524.
Definition DI4Y : Z := 1461.

(** [_ord2ymd]: ordinal to (year, month, day). *)
Definition ord2ymd (n0 : Z) : Z * Z * Z :=
  let n := n0 - 1 in
  let n400 := n / DI400Y in
  let n := n mod DI400Y in
  let y := n400 * 400 + 1 in
  let n100 := n / DI100Y in
  let n := n mod DI100Y in
  let n4 := n / DI4Y in
  let n := n mod DI4Y in
  let n1 := n / 365 in
  let n := n mod 365 in
  let y := y + n100 * 100 + n4 * 4 + n1 in
  if (n1 =? 4) || (n100 =? 4) then (y - 1, 12, 31)
  else
    let leapyear := (n1 =? 3) && (negb (n4 =? 24) || (n100 =? 3)) in
    let m := Z.shiftr (n + 50) 5 in
    let preceding :=
      tbl DAYS_BEFORE_MONTH m + (if (2 <? m) && leapyear then 1 else 0) in
    if n <? preceding then
      let m := m - 1 in
      let preceding :=
        preceding
        - (tbl DAYS_IN_MONTH m + (if (m =? 2) && leapyear then 1 else 0)) in
      (y, m, n - preceding + 1)
    else (y, m, n - preceding + 1).

Definition toordinal (d : datetime) : Z :=
  ymd2ord (year d) (month d) (day d).

(** [timedelta(days=d, hours=h)]. *)
Definition timedelta_of (d h : Z) : timedelta :=
  let s := h * 3600 in
  mkTimedelta (d + s / 86400) (s mod 86400) 0.

(** Normalising constructor [timedelta(days, seconds, microseconds)]. *)
Definition timedelta_norm (d s us : Z) : timedelta :=
  let s := s + us / 1000000 in
  mkTimedelta (d + s / 86400) (s mod 86400) (us mod 1000000).

Definition seconds_of_day (d : datetime) : Z :=
  second d + minute d * 60 + hour d * 3600.

(** [datetime.__add__]. *)
Definition add (d : datetime) (t : timedelta) : result datetime :=
  let delta :=
    timedelta_norm (toordinal d + td_days t)
                   (seconds_of_day d + td_seconds t)
                   (microsecond d + td_microseconds t) in
  let hh := td_seconds delta / 3600 in
  let rem := td_seconds delta mod 3600 in
  let mm := rem / 60 in
  let ss := rem mod 60 in
  if (0 <? td_days delta) && (td_days delta <=? MAXORDINAL) then
    let '(y, m, dd) := ord2ymd (td_days delta) in
    Ok (mkDatetime y m dd hh mm ss (td_microseconds delta))
  else Raise (OverflowError "result out of range").

(** [datetime.__sub__] between two datetimes. *)
Definition sub (a b : datetime) : timedelta :=
  timedelta_norm (toordinal a - toordinal b)
                 (seconds_of_day a - seconds_of_day b)
                 (microsecond a - microsecond b).

(** Lexicographic comparison of integer tuples, as [_cmp] on tuples. *)
Fixpoint lex_compare (xs ys : list Z) : comparison :=
  match xs, ys with
  | [], [] => Eq
  | [], _ :: _ => Lt
  | _ :: _, [] => Gt
  | x :: xs', y :: ys' =>
      match x ?= y with
      | Eq => lex_compare xs' ys'
      | c => c
      end
  end.

Definition fields (d : datetime) : list Z :=
  [year d; month d; day d; hour d; minute d; second d; microsecond d].

Definition compare (a b : datetime) : comparison :=
  lex_compare (fields a) (fields b).

Definition leb (a b : datetime) : bool :=
  match compare a b with Gt => false | _ => true end.
Definition ltb (a b : datetime) : bool :=
  match compare a b with Lt => true | _ => false end.

Definition td_fields (t : timedelta) : list Z :=
  [td_days t; td_seconds t; td_microseconds t].

Definition td_leb (a b : timedelta) : bool :=
  match lex_compare (td_fields a) (td_fields b) with
  | Gt => false
  | _ => true
  end.

(** Decimal rendering with zero padding, as ["%02d"], ["%04d"], ["%06d"]. *)
Definition digit (n : Z) : ascii :=
  ascii_of_nat (48 + Z.to_nat (n mod 10)).

Fixpoint zpad (width : nat) (n : Z) (acc : string) : string :=
  match width with
  | O => acc
  | S w => zpad w (n / 10) (String (digit n) acc)
  end.

(** [datetime.isoformat()] with the default separator and timespec. *)
Definition isoformat (d : datetime) : string :=
  zpad 4 (year d) "" +:+ "-" +:+ zpad 2 (month d) "" +:+ "-"
  +:+ zpad 2 (day d) "" +:+ "T" +:+ zpad 2 (hour d) "" +:+ ":"
  +:+ zpad 2 (minute d) "" +:+ ":" +:+ zpad 2 (second d) ""
  +:+ (if microsecond d =? 0 then "" else "." +:+ zpad 6 (microsecond d) "").

End Datetime.

Import Datetime.

(** ** Python values and dictionaries

    [VOther] stands for an object of any type the script does not build
    itself (a [set], a [date], [bytes], ...), known by its type's name. *)

Inductive pyval : Type :=
| VNone
| VBool (b : bool)
| VInt (z : Z)
| VStr (s : string)
| VDatetime (d : datetime)
| VList (l : list pyval)
| VDict (m : gmap string pyval)
| VOther (type_name : string).

(** [v == s] for a string literal [s]: false on every non-string. *)
Definition py_eq_str (v : pyval) (s : string) : bool :=
  match v with
  | VStr s' => String.eqb s' s
  | _ => false
  end.

(** ** The script's effects: a state and error monad over the two
    sources of randomness *)

(** [rand_tape] holds the raw integers the [random] module will produce
    and [fake_tape] the texts Faker will produce; a cursor walks each. Any
    seed is some tape, so a statement for every [World] is a statement for
    every run. *)
Record World : Type := mkWorld {
  rand_tape : nat -> Z;
  rand_pos : nat;
  fake_tape : nat -> string;
  fake_pos : nat
}.

Definition M (A : Type) : Type := World -> result (A * World).

Definition ret {A} (a : A) : M A := fun w => Ok (a, w).

Definition bind {A B} (m : M A) (k : A -> M B) : M B :=
  fun w =>
    match m w with
    | Ok (a, w') => k a w'
    | Raise e => Raise e
    end.

Definition raise {A} (e : exn) : M A := fun _ => Raise e.

Notation "x <- c ;; k" := (bind c (fun x => k))
  (at level 62, c at next level, right associativity).

(** [for x in xs: s = body x s]: the loop state [s] is what the body
    mutates (the list it appends to, a counter). *)
Fixpoint for_each {A S} (xs : list A) (body : A -> S -> M S) (s : S) : M S :=
  match xs with
  | [] => ret s
  | x :: xs' => s' <- body x s ;; for_each xs' body s'
  end.

(** [range(a, b)]. *)
Definition range (a b : Z) : list Z := seqZ a (b - a).

(** *** The [random] module *)

(** [Random._randbelow(n)] for [n > 0]: the next raw draw, reduced to
    [[0, n)]. *)
Definition randbelow (n : Z) : M Z :=
  fun w =>
    Ok (rand_tape w (rand_pos w) mod n,
        mkWorld (rand_tape w) (S (rand_pos w)) (fake_tape w) (fake_pos w)).

(** [random.randint(a, b)] is [randrange(a, b + 1)]. *)
Definition randint (a b : Z) : M Z :=
  let width := b + 1 - a in
  if 0 <? width then r <- randbelow width ;; ret (a + r)
  else raise (ValueError "empty range for randrange()").

(** [random.choice(seq)]. *)
Definition choice {A} (seq : list A) : M A :=
  match seq with
  | [] => raise (IndexError "Cannot choose from an empty sequence")
  | _ :: _ =>
      i <- randbelow (Z.of_nat (length seq)) ;;
      match seq !! Z.to_nat i with
      | Some x => ret x
      | None => raise (IndexError "list index out of range")
      end
  end.

(** *** Faker: every provider call returns the next text of its tape *)

Definition faker_text : M string :=
  fun w =>
    Ok (fake_tape w (fake_pos w),
        mkWorld (rand_tape w) (rand_pos w) (fake_tape w) (S (fake_pos w))).

Definition faker_name : M string := faker_text.
Definition faker_street_name : M string := faker_text.
Definition faker_city : M string := faker_text.
Definition faker_state : M string := faker_text.

(** *** Subscripting and the methods called on values *)

(** [d[k]] on a dictionary. *)
Definition getitem (d : gmap string pyval) (k : string) : M pyval :=
  match d !! k with
  | Some v => ret v
  | None => raise (KeyError k)
  end.

(** [l[i]] on a list, with Python's negative indices. *)
Definition list_getitem {A} (l : list A) (i : Z) : M A :=
  let j := if i <? 0 then i + Z.of_nat (length l) else i in
  if j <? 0 then raise (IndexError "list index out of range")
  else match l !! Z.to_nat j with
       | Some x => ret x
       | None => raise (IndexError "list index out of range")
       end.

(** The receiver of a [str] method must be a [str]. *)
Definition as_str (v : pyval) : M string :=
  match v with
  | VStr s => ret s
  | _ => raise (AttributeError "replace")
  end.

(** The left operand of [+ timedelta(...)] must be a [datetime]. *)
Definition as_datetime (v : pyval) : M datetime :=
  match v with
  | VDatetime d => ret d
  | _ => raise (TypeError "unsupported operand type(s) for +")
  end.

Definition lift {A} (r : result A) : M A :=
  match r with
  | Ok a => ret a
  | Raise e => raise e
  end.

(** [s.replace(old, new)] for a one-character [old]. *)
Fixpoint str_replace (old : ascii) (new : string) (s : string) : string :=
  match s with
  | EmptyString => EmptyString
  | String c s' =>
      if Ascii.eqb c old then new +:+ str_replace old new s'
      else String c (str_replace old new s')
  end.

(** [c.lower()] on the ASCII letters, the alphabet of Faker's default
    (en_US) name provider. *)
Definition lower_ascii (c : ascii) : ascii :=
  let n := nat_of_ascii c in
  if (65 <=? n)%nat && (n <=? 90)%nat then ascii_of_nat (n + 32) else c.

Fixpoint str_lower (s : string) : string :=
  match s with
  | EmptyString => EmptyString
  | String c s' => String (lower_ascii c) (str_lower s')
  end.

(** [str(n)] for an integer. *)
Definition str_of_int (n : Z) : string := pretty n.

(** ** The generator *)

Abbreviation dict := (gmap string pyval).

Definition email_domains : list string :=
  ["hotmail.com"; "gmail.com"; "coldmail.com"].

(** Body of the customer loop (lines 16-23): returns the list after the
    append. *)
Definition customer_body (i : Z) (sample_customers_list : list dict)
  : M (list dict) :=
  let single_customer_data : dict := ∅ in
  let single_customer_data :=
    <["customer_id" := VInt i]> single_customer_data in
  name <- faker_name ;;
  let single_customer_data := <["name" := VStr name]> single_customer_data in
  nm <- getitem single_customer_data "name" ;;
  nm <- as_str nm ;;
  domain <- choice email_domains ;;
  let single_customer_data :=
    <["email" := VStr (str_lower (str_replace " " "" nm) +:+ "@" +:+ domain)]>
      single_customer_data in
  house <- randint 111 894 ;;
  street <- faker_street_name ;;
  city <- faker_city ;;
  state <- faker_state ;;
  let address : dict :=
    <["state" := VStr state]>
      (<["city" := VStr city]>
         (<["street" := VStr (str_of_int house +:+ " " +:+ street)]> ∅)) in
  let single_customer_data :=
    <["address" := VDict address]> single_customer_data in
  ret (sample_customers_list ++ [single_customer_data]).

Definition gen_customers : M (list dict) :=
  for_each (range 1 25) customer_body [].

Definition product_names : list string :=
  ["Laptop"; "Phone"; "Tablet"; "Headphones"; "Smartwatch"; "Monitor";
   "Keyboard"; "Mouse"; "Gaming Chair"; "Desk Lamp"; "Router";
   "External Hard Drive"; "USB Flash Drive"; "Camera"; "Speakers";
   "Fitness Tracker"; "Microwave"; "Blender"; "Air Fryer";
   "Electric Kettle"; "Projector"; "Desk Organizer"].

Definition product_categories : list string :=
  ["Electronics"; "Electronics"; "Electronics"; "Accessories";
   "Wearables"; "Electronics"; "Accessories"; "Accessories";
   "Furniture"; "Lighting"; "Networking"; "Storage"; "Storage";
   "Electronics"; "Audio"; "Wearables"; "Appliances"; "Appliances";
   "Appliances"; "Appliances"; "Electronics"; "Furniture"].

(** Body of the product loop (lines 39-42). *)
Definition product_body (i : Z) (sample_products_list : list dict)
  : M (list dict) :=
  product_name <- list_getitem product_names (i - 101) ;;
  category <- list_getitem product_categories (i - 101) ;;
  price <- randint 30 1200 ;;
  stock_quantity <- randint 20 90 ;;
  ret (sample_products_list ++
       [ <["stock_quantity" := VInt stock_quantity]>
           (<["price" := VInt price]>
              (<["category" := VStr category]>
                 (<["product_name" := VStr product_name]>
                    (<["product_id" := VInt i]> ∅)))) ]).

Definition gen_products : M (list dict) :=
  for_each (range 101 123) product_body [].

Definition order_statuses : list string := ["Delivered"; "Pending"].

(** [datetime(2024, 1, 15, 10, 0, 0)]. *)
Definition base_date : datetime := mkDatetime 2024 1 15 10 0 0 0.

(** Body of the order loop (lines 45-53). *)
Definition order_body (i : Z) (sample_orders_list : list dict)
  : M (list dict) :=
  customer_id <- randint 1 24 ;;
  days <- randint 0 730 ;;
  order_date <- lift (add base_date (timedelta_of days 0)) ;;
  status <- choice order_statuses ;;
  let single_order : dict :=
    <["status" := VStr status]>
      (<["order_date" := VDatetime order_date]>
         (<["customer_id" := VInt customer_id]>
            (<["order_id" := VInt i]> ∅))) in
  st <- getitem single_order "status" ;;
  single_order <-
    (if py_eq_str st "Delivered" then
       od <- getitem single_order "order_date" ;;
       od <- as_datetime od ;;
       d <- randint 0 7 ;;
       h <- randint 2 24 ;;
       delivery_date <- lift (add od (timedelta_of d h)) ;;
       ret (<["delivery_date" := VDatetime delivery_date]> single_order)
     else ret single_order) ;;
  ret (sample_orders_list ++ [single_order]).

Definition gen_orders : M (list dict) :=
  for_each (range 5001 5030) order_body [].

(** Body of the inner loop (lines 62-72); the loop state is the shared
    counter [order_item_id] with the list being appended to. *)
Definition item_body (sample_products_list : list dict) (order : dict)
    (_ : Z) (st : Z * list dict) : M (Z * list dict) :=
  let '(order_item_id, sample_order_items_list) := st in
  product <- choice sample_products_list ;;
  quantity <- randint 1 3 ;;
  price <- getitem product "price" ;;
  oid <- getitem order "order_id" ;;
  pid <- getitem product "product_id" ;;
  ret (order_item_id + 1,
       sample_order_items_list ++
       [ <["price" := price]>
           (<["quantity" := VInt quantity]>
              (<["product_id" := pid]>
                 (<["order_id" := oid]>
                    (<["order_item_id" := VInt order_item_id]> ∅)))) ]).

(** Body of the outer loop (lines 60-72). *)
Definition order_items_body (sample_products_list : list dict) (order : dict)
    (st : Z * list dict) : M (Z * list dict) :=
  num_items <- randint 1 5 ;;
  for_each (range 0 num_items) (item_body sample_products_list order) st.

Definition gen_order_items (sample_orders_list sample_products_list : list dict)
  : M (Z * list dict) :=
  for_each sample_orders_list (order_items_body sample_products_list)
           (9001, []).

(** The module-level variables once the generation loops are done: the
    four lists and the item counter. *)
Record Samples : Type := mkSamples {
  sample_customers_list : list dict;
  sample_orders_list : list dict;
  sample_products_list : list dict;
  sample_order_items_list : list dict;
  order_item_id : Z
}.

(** Lines 15-72. *)
Definition generate : M Samples :=
  customers <- gen_customers ;;
  products <- gen_products ;;
  orders <- gen_orders ;;
  st <- gen_order_items orders products ;;
  ret (mkSamples customers orders products (snd st) (fst st)).

(** ** Serialisation *)

(** Lines 78-81. *)
Definition custom_serializer (obj : pyval) : result string :=
  match obj with
  | VDatetime d => Ok (isoformat d)
  | _ => Raise (TypeError "Type not serializable")
  end.

(** The document [json.dump] writes, up to white space and the order of
    the keys of an object. *)
Inductive json : Type :=
| JNull
| JBool (b : bool)
| JInt (z : Z)
| JStr (s : string)
| JArr (l : list json)
| JObj (m : gmap string json).

Definition result_bind {A B} (r : result A) (k : A -> result B) : result B :=
  match r with
  | Ok a => k a
  | Raise e => Raise e
  end.

(** [JSONEncoder.iterencode] with a [default] hook: the values JSON has a
    form for are encoded as they are, any other value goes through
    [default], whose result (here always a [str]) is encoded in its place;
    an exception of [default] ends the encoding. *)
Fixpoint json_encode (default : pyval -> result string) (o : pyval)
  : result json :=
  match o with
  | VNone => Ok JNull
  | VBool b => Ok (JBool b)
  | VInt z => Ok (JInt z)
  | VStr s => Ok (JStr s)
  | VList l =>
      result_bind
        (foldr (fun x acc =>
                  result_bind (json_encode default x) (fun j =>
                  result_bind acc (fun js => Ok (j :: js))))
               (Ok []) l)
        (fun js => Ok (JArr js))
  | VDict m =>
      result_bind
        (map_fold (fun k x acc =>
                     result_bind acc (fun js =>
                     result_bind (json_encode default x) (fun j =>
                     Ok (<[k:=j]> js))))
                  (Ok ∅) m)
        (fun js => Ok (JObj js))
  | VDatetime _ | VOther _ =>
      result_bind (default o) (fun s => Ok (JStr s))
  end.

(** [json.dump(lst, json_file, indent=4, default=custom_serializer)]. *)
Definition json_dump (lst : list dict) : result json :=
  json_encode custom_serializer (VList (VDict <$> lst)).

(** Lines 84-97: each list is dumped to its own file, in this order; the
    first dump that raises ends the run. *)
Definition save_all (s : Samples) : result (list (string * json)) :=
  result_bind (json_dump (sample_customers_list s)) (fun customers =>
  result_bind (json_dump (sample_orders_list s)) (fun orders =>
  result_bind (json_dump (sample_products_list s)) (fun products =>
  result_bind (json_dump (sample_order_items_list s)) (fun items =>
  Ok [ ("./sample_data/customers_collection.json", customers);
       ("./sample_data/orders_collection.json", orders);
       ("./sample_data/products_collection.json", products);
       ("./sample_data/order_items_collection.json", items) ])))).

(** The whole script: generation, then the four dumps. *)
Definition script : M (list (string * json)) :=
  s <- generate ;; lift (save_all s).

(** Line 101: the text [print] writes, the f-string and the newline
    [print] appends. *)
Definition newline : string := String (ascii_of_nat 10) EmptyString.

Definition summary (s : Samples) : string :=
  "customers: " +:+ str_of_int (Z.of_nat (length (sample_customers_list s)))
  +:+ newline +:+
  "products: " +:+ str_of_int (Z.of_nat (length (sample_products_list s)))
  +:+ newline +:+
  "orders: " +:+ str_of_int (Z.of_nat (length (sample_orders_list s)))
  +:+ newline +:+
  "order_items: "
  +:+ str_of_int (Z.of_nat (length (sample_order_items_list s)))
  +:+ newline +:+ newline.

(** * Specification vocabulary *)

(** ** Calendar checks on the window the script can reach

    Order dates fall on the ordinals 738900 .. 739630 (2024-01-15 plus at
    most 730 days) and delivery dates at most 8 days later. On that window
    the two calendar conversions are checked ordinal by ordinal. *)

Definition ymd_fields (t : Z * Z * Z) : list Z :=
  let '(y, m, d) := t in [y; m; d].

Definition roundtrip_ok (n : Z) : bool :=
  let '(y, m, d) := ord2ymd n in ymd2ord y m d =? n.

Definition later_day_ok (n : Z) : bool :=
  forallb
    (fun k =>
       match lex_compare (ymd_fields (ord2ymd n))
                         (ymd_fields (ord2ymd (n + k))) with
       | Lt => true
       | _ => false
       end)
    (seqZ 1 8).

(** ** A total-correctness triple for the script's monad

    [returns m Q]: from every world, [m] finishes without raising and its
    value satisfies [Q]. The postcondition does not mention the world, so
    what it states holds whatever the draws are. *)
Definition returns {A} (m : M A) (Q : A -> Prop) : Prop :=
  forall w, exists a w', m w = Ok (a, w') /\ Q a.

(** ** What each loop establishes *)

Definition customer_ok (i : Z) (c : dict) : Prop :=
  c !! "customer_id" = Some (VInt i) /\
  exists name domain,
    c !! "name" = Some (VStr name) /\
    domain ∈ email_domains /\
    c !! "email" =
      Some (VStr (str_lower (str_replace " " "" name) +:+ "@" +:+ domain)).

Definition product_ok (i : Z) (p : dict) : Prop :=
  p !! "product_id" = Some (VInt i) /\
  (exists name, product_names !! Z.to_nat (i - 101) = Some name /\
                p !! "product_name" = Some (VStr name)) /\
  (exists cat, product_categories !! Z.to_nat (i - 101) = Some cat /\
               p !! "category" = Some (VStr cat)) /\
  (exists price, p !! "price" = Some (VInt price) /\ 30 <= price <= 1200) /\
  (exists stock, p !! "stock_quantity" = Some (VInt stock) /\
                 20 <= stock <= 90).

(** The two outcomes of the status test on line 50. *)
Definition delivery_ok (od : datetime) (o : dict) (st : string) : Prop :=
  (st = "Delivered" /\
   exists d h dd,
     0 <= d <= 7 /\ 2 <= h <= 24 /\
     add od (timedelta_of d h) = Ok dd /\
     o !! "delivery_date" = Some (VDatetime dd) /\
     compare od dd = Lt /\
     sub dd od = timedelta_of d h)
  \/ (st = "Pending" /\ o !! "delivery_date" = None).

Definition order_ok (i : Z) (o : dict) : Prop :=
  o !! "order_id" = Some (VInt i) /\
  exists cid r od st,
    o !! "customer_id" = Some (VInt cid) /\ 1 <= cid <= 24 /\
    0 <= r <= 730 /\ add base_date (timedelta_of r 0) = Ok od /\
    o !! "order_date" = Some (VDatetime od) /\
    o !! "status" = Some (VStr st) /\
    delivery_ok od o st.

Definition item_ok (products : list dict) (order it : dict) : Prop :=
  it !! "order_id" = order !! "order_id" /\
  (exists p, p ∈ products /\
             it !! "product_id" = p !! "product_id" /\
             it !! "price" = p !! "price") /\
  (exists q, it !! "quantity" = Some (VInt q) /\ 1 <= q <= 3).

(** The item at index [k] carries identifier [c0 + k]. *)
Definition ids_from (c0 : Z) (items : list dict) : Prop :=
  forall (k : nat) (it : dict),
    items !! k = Some it ->
    it !! "order_item_id" = Some (VInt (c0 + Z.of_nat k)).

Definition block_ok (products : list dict) (order : dict)
    (block : list dict) : Prop :=
  (1 <= length block <= 5)%nat /\ Forall (item_ok products order) block.

(** What the loops need of their inputs for the subscripts not to raise. *)
Definition product_keys (p : dict) : Prop :=
  is_Some (p !! "price") /\ is_Some (p !! "product_id").

Definition order_keys (o : dict) : Prop := is_Some (o !! "order_id").

(** Invariant of the inner loop, entered with the item list [items0]. *)
Definition inner_inv (products : list dict) (order : dict)
    (items0 : list dict) (done : list Z) (st : Z * list dict) : Prop :=
  st.1 = 9001 + Z.of_nat (length st.2) /\
  ids_from 9001 st.2 /\
  exists block,
    st.2 = items0 ++ block /\
    length block = length done /\
    Forall (item_ok products order) block.

(** Invariant of the outer loop. *)
Definition items_inv (products : list dict) (done : list dict)
    (st : Z * list dict) : Prop :=
  st.1 = 9001 + Z.of_nat (length st.2) /\
  ids_from 9001 st.2 /\
  exists blocks,
    st.2 = concat blocks /\ Forall2 (block_ok products) done blocks.

(** The integer stored under key [k], if there is one. *)
Definition int_at (k : string) (d : dict) : option Z :=
  match d !! k with
  | Some (VInt z) => Some z
  | _ => None
  end.

(** The integers stored under key [k] along a list of dictionaries. *)
Definition column (k : string) (l : list dict) : list (option Z) :=
  map (int_at k) l.

Definition has_int (k : string) (z : Z) (d : dict) : bool :=
  match int_at k d with
  | Some z' => z' =? z
  | None => false
  end.

(** The items of the order numbered [oid], in the order they were made. *)
Definition items_of (oid : Z) (items : list dict) : list dict :=
  List.filter (has_int "order_id" oid) items.

(** How many items an order got. *)
Definition item_count (items : list dict) (o : dict) : nat :=
  match int_at "order_id" o with
  | Some oid => length (items_of oid items)
  | None => 0
  end.

(** The record a foreign key [k] with value [z] refers to. *)
Definition by_id (k : string) (z : Z) (l : list dict) : option dict :=
  List.find (has_int k z) l.

(** A run of one to five items that all belong to order [id]. *)
Definition block_of (id : Z) (b : list dict) : Prop :=
  (1 <= length b <= 5)%nat /\
  Forall (fun it => int_at "order_id" it = Some id) b.

(** A run whose every raw draw is [z] and whose every Faker text is the
    same name. *)
Definition world_const (z : Z) : World :=
  mkWorld (fun _ => z) 0 (fun _ => "Ada Lovelace") 0.

(** A run whose n-th raw draw is [n]. *)
Definition world_count : World :=
  mkWorld (fun n => Z.of_nat n) 0 (fun _ => "Ada Lovelace") 0.

(** The first two items of a run belong to order [oid] and both name
    product [pid]. *)
Definition first_two_items_same (oid pid : Z)
    (r : result (Samples * World)) : bool :=
  match r with
  | Ok (s, _) =>
      match sample_order_items_list s with
      | a :: b :: _ =>
          has_int "order_id" oid a && has_int "order_id" oid b &&
          has_int "product_id" pid a && has_int "product_id" pid b
      | _ => false
      end
  | Raise _ => false
  end.

(** The sizes of the four lists of a run. *)
Definition sizes (r : result (Samples * World))
  : option (nat * nat * nat * nat) :=
  match r with
  | Ok (s, _) =>
      Some (length (sample_customers_list s), length (sample_products_list s),
            length (sample_orders_list s), length (sample_order_items_list s))
  | Raise _ => None
  end.

(** The value under key [k] of the order at index [n] of a run. *)
Definition order_field (n : nat) (k : string)
    (r : result (Samples * World)) : option pyval :=
  match r with
  | Ok (s, _) => sample_orders_list s !! n ≫= (fun o => o !! k)
  | Raise _ => None
  end.

(** The keys of the JSON object written for the order at index [n]. *)
Definition dumped_order_keys (n : nat)
    (r : result (Samples * World)) : option (list string) :=
  match r with
  | Ok (s, _) =>
      match json_dump (sample_orders_list s) with
      | Ok (JArr js) =>
          match js !! n with
          | Some (JObj m) => Some (map fst (map_to_list m))
          | _ => None
          end
      | _ => None
      end
  | Raise _ => None
  end.

(** Values JSON has a form for once datetimes go through the hook, and
    dictionaries of such values: all the generator ever stores. *)
Definition scalar (v : pyval) : Prop :=
  match v with
  | VNone | VBool _ | VInt _ | VStr _ | VDatetime _ => True
  | VList _ | VDict _ | VOther _ => False
  end.

Definition plain (v : pyval) : Prop :=
  scalar v \/ exists m, v = VDict m /\ map_Forall (fun _ x => scalar x) m.

Definition record_plain (d : dict) : Prop :=
  map_Forall (fun _ v => plain v) d.

Definition samples_plain (s : Samples) : Prop :=
  Forall record_plain (sample_customers_list s) /\
  Forall record_plain (sample_orders_list s) /\
  Forall record_plain (sample_products_list s) /\
  Forall record_plain (sample_order_items_list s).

(** Everything the loops establish about the module-level variables. *)
Definition samples_ok (s : Samples) : Prop :=
  Forall2 customer_ok (range 1 25) (sample_customers_list s) /\
  Forall2 product_ok (range 101 123) (sample_products_list s) /\
  Forall2 order_ok (range 5001 5030) (sample_orders_list s) /\
  items_inv (sample_products_list s) (sample_orders_list s)
            (order_item_id s, sample_order_items_list s).

(** ** The exact records the loops build *)

Definition address_of (house : Z) (street city state : string) : dict :=
  <["state" := VStr state]>
    (<["city" := VStr city]>
       (<["street" := VStr (str_of_int house +:+ " " +:+ street)]> ∅)).

Definition customer_shape (c : dict) : Prop :=
  exists i name domain house street city state,
    111 <= house <= 894 /\
    domain ∈ email_domains /\
    c = <["address" := VDict (address_of house street city state)]>
          (<["email" :=
               VStr (str_lower (str_replace " " "" name) +:+ "@" +:+ domain)]>
             (<["name" := VStr name]> (<["customer_id" := VInt i]> ∅))).

Definition product_shape (p : dict) : Prop :=
  exists i name cat price stock,
    p = <["stock_quantity" := VInt stock]>
          (<["price" := VInt price]>
             (<["category" := VStr cat]>
                (<["product_name" := VStr name]>
                   (<["product_id" := VInt i]> ∅)))).

Definition order_base (i cid : Z) (od : datetime) (st : string) : dict :=
  <["status" := VStr st]>
    (<["order_date" := VDatetime od]>
       (<["customer_id" := VInt cid]> (<["order_id" := VInt i]> ∅))).

Definition order_shape (o : dict) : Prop :=
  exists i cid r y m dy,
    0 <= r <= 730 /\
    ord2ymd (738900 + r) = (y, m, dy) /\
    let od := mkDatetime y m dy 10 0 0 0 in
    o = order_base i cid od "Pending" \/
    exists d h dd,
      0 <= d <= 7 /\ 2 <= h <= 24 /\
      add od (timedelta_of d h) = Ok dd /\
      o = <["delivery_date" := VDatetime dd]> (order_base i cid od "Delivered").

Definition item_shape (products : list dict) (order it : dict) : Prop :=
  exists id p q oid pid price,
    p ∈ products /\
    order !! "order_id" = Some oid /\
    p !! "product_id" = Some pid /\
    p !! "price" = Some price /\
    it = <["price" := price]>
           (<["quantity" := VInt q]>
              (<["product_id" := pid]>
                 (<["order_id" := oid]>
                    (<["order_item_id" := VInt id]> ∅)))).

(** The key sets of the four kinds of record. *)
Definition keys (ks : list string) : gset string := list_to_set ks.

(** ** Calendar checks for the order date *)

(** 2026-01-14 10:00:00, the base date plus 730 days. *)
Definition last_order_date : datetime := mkDatetime 2026 1 14 10 0 0 0.

Definition order_date_ok (n : Z) : bool :=
  let '(y, m, d) := ord2ymd n in
  leb base_date (mkDatetime y m d 10 0 0 0) &&
  leb (mkDatetime y m d 10 0 0 0) last_order_date.

(** ** Characters of an e-mail address *)

Definition email_char (ch : ascii) : bool :=
  negb (Ascii.eqb ch " ") && Ascii.eqb (lower_ascii ch) ch.

(** ** The size of a value, for induction on nested values *)

Fixpoint pyval_size (v : pyval) : nat :=
  match v with
  | VList l => S (foldr (fun x acc => pyval_size x + acc)%nat O l)
  | VDict m => S (map_fold (fun _ x acc => pyval_size x + acc)%nat O m)
  | _ => 1%nat
  end.

(** ** Proof automation *)

(** Linear arithmetic with division and remainder by constants. *)
Ltac dlia := Z.div_mod_to_equations; lia.

(** Lookups in a dictionary literal. *)
Ltac dict_lookup :=
  repeat first
    [ rewrite lookup_insert_eq
    | rewrite lookup_insert_ne by discriminate
    | rewrite lookup_empty ].

(** Plainness of a dictionary literal. *)
Ltac plain_literal :=
  repeat (apply map_Forall_insert_2; [try (by left)|]);
  try apply map_Forall_empty.

(** * Verification *)

(** ** The model at work on concrete inputs *)

Example ord2ymd_base_date : ord2ymd 738900 = (2024, 1, 15).
Proof. reflexivity. Qed.

Example add_reaches_leap_day :
  add base_date (timedelta_of 45 0) = Ok (mkDatetime 2024 2 29 10 0 0 0).
Proof. by vm_compute. Qed.

Example add_24_hours_is_next_day :
  add base_date (timedelta_of 0 24) = Ok (mkDatetime 2024 1 16 10 0 0 0).
Proof. by vm_compute. Qed.

Example add_past_year_9999_overflows :
  add (mkDatetime 9999 12 31 23 0 0 0) (timedelta_of 0 2)
  = Raise (OverflowError "result out of range").
Proof. by vm_compute. Qed.

Example isoformat_base_date : isoformat base_date = "2024-01-15T10:00:00".
Proof. by vm_compute. Qed.

Example isoformat_microseconds :
  isoformat (mkDatetime 2024 1 5 10 0 0 123) = "2024-01-05T10:00:00.000123".
Proof. by vm_compute. Qed.

Example email_local_part :
  str_lower (str_replace " " "" "Ada Lovelace") = "adalovelace".
Proof. by vm_compute. Qed.

Example custom_serializer_datetime :
  custom_serializer (VDatetime base_date) = Ok "2024-01-15T10:00:00".
Proof. by vm_compute. Qed.

Example custom_serializer_int :
  custom_serializer (VInt 5) = Raise (TypeError "Type not serializable").
Proof. reflexivity. Qed.

Example json_dump_other_raises :
  json_dump [ <["when" := VOther "date"]> ∅ ]
  = Raise (TypeError "Type not serializable").
Proof. by vm_compute. Qed.

Example run_sizes : sizes (generate world_count) = Some (24, 22, 29, 96)%nat.
Proof. by vm_compute. Qed.

(** The first order of that run is delivered a week and six hours after it
    was placed; the second is pending and has no delivery date, neither in
    the dictionary nor in the JSON object written for it. *)
Example run_first_order_delivered :
  order_field 0 "status" (generate world_count) = Some (VStr "Delivered") /\
  order_field 0 "order_date" (generate world_count)
    = Some (VDatetime (mkDatetime 2024 4 17 10 0 0 0)) /\
  order_field 0 "delivery_date" (generate world_count)
    = Some (VDatetime (mkDatetime 2024 4 24 16 0 0 0)).
Proof. by vm_compute. Qed.

Example run_second_order_pending :
  order_field 1 "status" (generate world_count) = Some (VStr "Pending") /\
  order_field 1 "delivery_date" (generate world_count) = None /\
  dumped_order_keys 1 (generate world_count)
    = Some ["order_id"; "order_date"; "status"; "customer_id"].
Proof. by vm_compute. Qed.

(** ** Calendar facts on the window *)

Lemma forallb_seqZ (f : Z -> bool) (lo len : Z) :
  forallb f (seqZ lo len) = true ->
  forall x, lo <= x < lo + len -> f x = true.
Proof.
  intros Hall x Hx.
  rewrite forallb_forall in Hall. apply Hall.
  apply list_elem_of_In, elem_of_seqZ. lia.
Qed.

Lemma toordinal_base_date : toordinal base_date = 738900.
Proof. reflexivity. Qed.

Lemma roundtrip_window n :
  738900 <= n <= 739638 ->
  forall y m d, ord2ymd n = (y, m, d) -> ymd2ord y m d = n.
Proof.
  intros Hn y m d E.
  assert (H : roundtrip_ok n = true).
  { apply (forallb_seqZ roundtrip_ok 738900 739); [by vm_compute | lia]. }
  unfold roundtrip_ok in H. rewrite E in H. lia.
Qed.

Lemma later_day_window n k :
  738900 <= n <= 739630 -> 1 <= k <= 8 ->
  lex_compare (ymd_fields (ord2ymd n)) (ymd_fields (ord2ymd (n + k))) = Lt.
Proof.
  intros Hn Hk.
  assert (H : later_day_ok n = true).
  { apply (forallb_seqZ later_day_ok 738900 731); [by vm_compute | lia]. }
  unfold later_day_ok in H.
  pose proof (forallb_seqZ _ _ _ H k ltac:(lia)) as Hk'. simpl in Hk'.
  by destruct (lex_compare _ _).
Qed.

Lemma lex_compare_ymd_lt y m d y' m' d' r r' :
  lex_compare [y; m; d] [y'; m'; d'] = Lt ->
  lex_compare (y :: m :: d :: r) (y' :: m' :: d' :: r') = Lt.
Proof.
  simpl. destruct (y ?= y'), (m ?= m'), (d ?= d'); congruence.
Qed.

Lemma lex_compare_refl_cons x r r' :
  lex_compare (x :: r) (x :: r') = lex_compare r r'.
Proof. simpl. by rewrite Z.compare_refl. Qed.

(** What [datetime.__add__] yields for a whole-second datetime and a
    whole-second duration, in terms of the ordinal [n] and the second of
    the day [s] of the sum. *)
Lemma add_whole_seconds x t n s y m d :
  microsecond x = 0 -> td_microseconds t = 0 ->
  toordinal x + td_days t + (seconds_of_day x + td_seconds t) / 86400 = n ->
  (seconds_of_day x + td_seconds t) mod 86400 = s ->
  0 < n <= MAXORDINAL ->
  ord2ymd n = (y, m, d) ->
  add x t =
    Ok (mkDatetime y m d (s / 3600) (s mod 3600 / 60) (s mod 3600 mod 60) 0).
Proof.
  intros Hx Ht Hn Hs Hrange E. unfold add, timedelta_norm.
  rewrite Hx, Ht. cbn [td_days td_seconds td_microseconds].
  replace ((0 + 0) / 1000000) with 0 by reflexivity.
  replace ((0 + 0) mod 1000000) with 0 by reflexivity.
  rewrite Z.add_0_r, Hn, Hs, E.
  destruct (0 <? n) eqn:E1; [|lia].
  destruct (n <=? MAXORDINAL) eqn:E2; [|lia].
  reflexivity.
Qed.

Lemma seconds_of_day_at y m d hh :
  seconds_of_day (mkDatetime y m d hh 0 0 0) = hh * 3600.
Proof. unfold seconds_of_day. cbn [second minute hour]. lia. Qed.

(** The order date: [base_date + timedelta(days=r)]. *)
Lemma order_date_spec r y m d :
  0 <= r <= 730 ->
  ord2ymd (738900 + r) = (y, m, d) ->
  add base_date (timedelta_of r 0) = Ok (mkDatetime y m d 10 0 0 0).
Proof.
  intros Hr E.
  apply (add_whole_seconds base_date (timedelta_of r 0) (738900 + r) 36000
           y m d); try done.
  - rewrite toordinal_base_date. unfold base_date.
    rewrite seconds_of_day_at. unfold timedelta_of.
    cbn [td_days td_seconds]. dlia.
  - unfold MAXORDINAL. lia.
Qed.

(** The delivery date: [order_date + timedelta(days=d, hours=h)] exists,
    is later than the order date, and is later by exactly that duration. *)
Lemma delivery_date_spec n y m dy d h :
  738900 <= n <= 739630 ->
  ord2ymd n = (y, m, dy) ->
  0 <= d <= 7 -> 2 <= h <= 24 ->
  exists dd,
    add (mkDatetime y m dy 10 0 0 0) (timedelta_of d h) = Ok dd /\
    compare (mkDatetime y m dy 10 0 0 0) dd = Lt /\
    sub dd (mkDatetime y m dy 10 0 0 0) = timedelta_of d h.
Proof.
  intros Hn E Hd Hh.
  set (od := mkDatetime y m dy 10 0 0 0).
  assert (Hord : toordinal od = n) by (apply roundtrip_window; [lia | done]).
  set (total := 36000 + (h * 3600) mod 86400).
  set (n' := n + (d + h * 3600 / 86400) + total / 86400).
  set (s := total mod 86400).
  assert (Hk : 0 <= n' - n <= 8) by (subst n' total; dlia).
  assert (Hs : 0 <= s < 86400) by (subst s; dlia).
  assert (Hsame : n' = n -> 10 < s / 3600) by (subst n' s total; dlia).
  destruct (ord2ymd n') as [[y' m'] d'] eqn:E'.
  assert (Hadd : add od (timedelta_of d h) =
    Ok (mkDatetime y' m' d' (s / 3600) (s mod 3600 / 60) (s mod 3600 mod 60) 0)).
  { apply (add_whole_seconds od (timedelta_of d h) n' s); try done.
    - rewrite Hord. unfold od. rewrite seconds_of_day_at.
      change (10 * 3600) with 36000.
      unfold timedelta_of. cbn [td_days td_seconds]. subst n' total. lia.
    - unfold MAXORDINAL. lia. }
  eexists. split; [exact Hadd|]. split.
  - unfold compare, fields, od.
    cbn [year month day hour minute second microsecond].
    destruct (decide (n' = n)) as [Heq|Hne].
    + rewrite Heq, E in E'. injection E' as <- <- <-.
      rewrite !lex_compare_refl_cons. cbn [lex_compare].
      specialize (Hsame Heq). apply Z.compare_lt_iff in Hsame.
      by rewrite Hsame.
    + apply lex_compare_ymd_lt.
      pose proof (later_day_window n (n' - n) Hn ltac:(lia)) as Hlt.
      replace (n + (n' - n)) with n' in Hlt by lia.
      by rewrite E, E' in Hlt.
  - assert (Hord' : toordinal
      (mkDatetime y' m' d' (s / 3600) (s mod 3600 / 60) (s mod 3600 mod 60) 0)
      = n') by (apply roundtrip_window; [lia | done]).
    assert (Hsod : seconds_of_day
      (mkDatetime y' m' d' (s / 3600) (s mod 3600 / 60) (s mod 3600 mod 60) 0)
      = s) by (unfold seconds_of_day; cbn [hour minute second]; dlia).
    unfold sub. rewrite Hord', Hord, Hsod. unfold od.
    rewrite seconds_of_day_at. cbn [microsecond].
    unfold timedelta_norm, timedelta_of.
    f_equal; subst n' s total; dlia.
Qed.

(** ** Rules of the triple *)

Section Returns.
Context {A B : Type}.

Lemma returns_ret (a : A) (Q : A -> Prop) : Q a -> returns (ret a) Q.
Proof. intros HQ w. by exists a, w. Qed.

Lemma returns_ret_eq (a : A) : returns (ret a) (fun x => x = a).
Proof. by apply returns_ret. Qed.

Lemma returns_bind (m : M A) (k : A -> M B) (P : A -> Prop) (Q : B -> Prop) :
  returns m P ->
  (forall a, P a -> returns (k a) Q) ->
  returns (bind m k) Q.
Proof.
  intros Hm Hk w. destruct (Hm w) as (a & w1 & Em & HP).
  destruct (Hk a HP w1) as (b & w2 & Ek & HQ).
  exists b, w2. unfold bind. by rewrite Em.
Qed.

Lemma returns_mono (m : M A) (P Q : A -> Prop) :
  returns m P -> (forall a, P a -> Q a) -> returns m Q.
Proof.
  intros Hm HPQ w. destruct (Hm w) as (a & w' & E & HP).
  exists a, w'. auto.
Qed.

Lemma returns_lift (r : result A) (a : A) :
  r = Ok a -> returns (lift r) (fun x => x = a).
Proof. intros ->. apply returns_ret_eq. Qed.

Lemma returns_choice (seq : list A) :
  seq <> [] -> returns (choice seq) (fun x => x ∈ seq).
Proof.
  intros Hne w. destruct seq as [|x0 seq']; [done|].
  unfold choice, bind, randbelow.
  set (l := x0 :: seq').
  set (i := rand_tape w (rand_pos w) mod Z.of_nat (length l)).
  assert (Hi : 0 <= i < Z.of_nat (length l)).
  { apply Z.mod_pos_bound. simpl. lia. }
  destruct (lookup_lt_is_Some_2 l (Z.to_nat i) ltac:(lia)) as [x Ex].
  rewrite Ex. eexists x, _. split; [reflexivity|].
  by eapply list_elem_of_lookup_2.
Qed.

(** Every element of the sequence can be the one chosen. *)
Lemma choice_any (seq : list A) (i : nat) (x : A) (w : World) :
  seq !! i = Some x ->
  rand_tape w (rand_pos w) = Z.of_nat i ->
  exists w', choice seq w = Ok (x, w').
Proof.
  intros Ex Et. pose proof (lookup_lt_Some _ _ _ Ex) as Hlt.
  destruct seq as [|x0 seq']; [done|].
  unfold choice, bind, randbelow. rewrite Et.
  rewrite Z.mod_small by lia. rewrite Nat2Z.id, Ex. by eexists.
Qed.
End Returns.

Lemma returns_randint (a b : Z) :
  a <= b -> returns (randint a b) (fun r => a <= r <= b).
Proof.
  intros Hab w. unfold randint.
  destruct (0 <? b + 1 - a) eqn:E; [|lia].
  unfold bind, randbelow, ret. eexists _, _. split; [reflexivity|].
  simpl. pose proof (Z.mod_pos_bound (rand_tape w (rand_pos w)) (b + 1 - a)).
  lia.
Qed.

Lemma returns_faker_text : returns faker_text (fun _ => True).
Proof. intros w. unfold faker_text. by eexists _, _. Qed.

Lemma returns_getitem (d : dict) (k : string) (v : pyval) :
  d !! k = Some v -> returns (getitem d k) (fun x => x = v).
Proof. intros E. unfold getitem. rewrite E. by apply returns_ret. Qed.

Lemma returns_list_getitem {A} (l : list A) (i : Z) (x : A) :
  0 <= i -> l !! Z.to_nat i = Some x ->
  returns (list_getitem l i) (fun y => y = x).
Proof.
  intros Hi E. unfold list_getitem.
  destruct (i <? 0) eqn:E1; [lia|]. rewrite E1, E. by apply returns_ret.
Qed.

(** The loop rule: [I done s] is the invariant after the iterations over
    [done], a prefix of the sequence. *)
Lemma returns_for_each {A S} (I : list A -> S -> Prop)
    (xs : list A) (body : A -> S -> M S) (s0 : S) :
  I [] s0 ->
  (forall done x rest s,
      xs = done ++ x :: rest -> I done s ->
      returns (body x s) (I (done ++ [x]))) ->
  returns (for_each xs body s0) (I xs).
Proof.
  intros H0 Hbody.
  enough (Hgen : forall rest done s,
             xs = done ++ rest -> I done s ->
             returns (for_each rest body s) (I xs)).
  { by apply (Hgen xs [] s0). }
  induction rest as [|x rest IH]; intros done s Hxs HI.
  - rewrite app_nil_r in Hxs. subst done. by apply returns_ret.
  - simpl. eapply returns_bind.
    + by eapply Hbody.
    + intros s' HI'. apply (IH (done ++ [x])); [|done].
      by rewrite <- app_assoc.
Qed.

Lemma range_elem (a b x : Z) (done rest : list Z) :
  range a b = done ++ x :: rest -> a <= x < b.
Proof.
  intros E. assert (Hin : x ∈ range a b) by (rewrite E; set_solver).
  unfold range in Hin. apply elem_of_seqZ in Hin. lia.
Qed.


(** ** The customer loop *)

Lemma customer_body_spec (i : Z) (done : list Z) (l : list dict) :
  Forall2 customer_ok done l ->
  returns (customer_body i l) (Forall2 customer_ok (done ++ [i])).
Proof.
  intros Hl. unfold customer_body.
  eapply returns_bind; [apply returns_faker_text|]. intros name _.
  eapply returns_bind; [apply returns_getitem; dict_lookup; reflexivity|].
  intros ? ->. cbn [as_str].
  eapply returns_bind; [apply returns_ret_eq|]. intros ? ->.
  eapply returns_bind; [by apply returns_choice|]. intros domain Hdom.
  eapply returns_bind; [apply returns_randint; lia|]. intros house _.
  do 3 (eapply returns_bind; [apply returns_faker_text|]; intros ? _).
  apply returns_ret. apply Forall2_app; [done|].
  constructor; [|constructor].
  split; [by dict_lookup|].
  exists name, domain. by dict_lookup.
Qed.

Lemma gen_customers_spec :
  returns gen_customers (Forall2 customer_ok (range 1 25)).
Proof.
  apply (returns_for_each (Forall2 customer_ok)); [constructor|].
  intros done i rest l _ Hl. by apply customer_body_spec.
Qed.

(** ** The product loop *)

Lemma product_body_spec (i : Z) (done : list Z) (l : list dict) :
  101 <= i < 123 ->
  Forall2 product_ok done l ->
  returns (product_body i l) (Forall2 product_ok (done ++ [i])).
Proof.
  intros Hi Hl. unfold product_body.
  destruct (lookup_lt_is_Some_2 product_names (Z.to_nat (i - 101)))
    as [name Ename]; [simpl; lia|].
  destruct (lookup_lt_is_Some_2 product_categories (Z.to_nat (i - 101)))
    as [cat Ecat]; [simpl; lia|].
  eapply returns_bind; [by apply (returns_list_getitem _ _ name); [lia|]|].
  intros ? ->.
  eapply returns_bind; [by apply (returns_list_getitem _ _ cat); [lia|]|].
  intros ? ->.
  eapply returns_bind; [apply returns_randint; lia|]. intros price Hprice.
  eapply returns_bind; [apply returns_randint; lia|]. intros stock Hstock.
  apply returns_ret. apply Forall2_app; [done|].
  constructor; [|constructor].
  unfold product_ok. dict_lookup. repeat split; eauto.
Qed.

Lemma gen_products_spec :
  returns gen_products (Forall2 product_ok (range 101 123)).
Proof.
  apply (returns_for_each (Forall2 product_ok)); [constructor|].
  intros done i rest l Hsplit Hl.
  apply product_body_spec; [|done]. by eapply range_elem.
Qed.

(** ** The order loop *)

Lemma order_body_spec (i : Z) (done : list Z) (l : list dict) :
  Forall2 order_ok done l ->
  returns (order_body i l) (Forall2 order_ok (done ++ [i])).
Proof.
  intros Hl. unfold order_body.
  eapply returns_bind; [apply returns_randint; lia|]. intros cid Hcid.
  eapply returns_bind; [apply returns_randint; lia|]. intros r Hr.
  destruct (ord2ymd (738900 + r)) as [[y m] dy] eqn:E.
  cbv beta in Hcid, Hr.
  pose proof (order_date_spec r y m dy Hr E) as Hod.
  eapply returns_bind; [by apply returns_lift|]. intros ? ->.
  eapply returns_bind; [by apply returns_choice|]. intros st Hst.
  eapply returns_bind; [apply returns_getitem; dict_lookup; reflexivity|].
  intros ? ->.
  assert (Hcases : st = "Delivered" \/ st = "Pending").
  { unfold order_statuses in Hst.
    rewrite !elem_of_cons, elem_of_nil in Hst. tauto. }
  apply (returns_bind _ _ (order_ok i)).
  - destruct Hcases as [-> | ->];
      cbn [py_eq_str String.eqb Ascii.eqb Bool.eqb].
    + eapply returns_bind; [apply returns_getitem; dict_lookup; reflexivity|].
      intros ? ->. cbn [as_datetime].
      eapply returns_bind; [apply returns_ret_eq|]. intros ? ->.
      eapply returns_bind; [apply returns_randint; lia|]. intros d Hd.
      eapply returns_bind; [apply returns_randint; lia|]. intros h Hh.
      cbv beta in Hd, Hh.
      destruct (delivery_date_spec (738900 + r) y m dy d h ltac:(lia) E Hd Hh)
        as (dd & Hadd & Hlt & Hsub).
      eapply returns_bind; [by apply returns_lift|]. intros ? ->.
      apply returns_ret.
      split; [by dict_lookup|].
      exists cid, r, (mkDatetime y m dy 10 0 0 0), "Delivered".
      unfold delivery_ok. dict_lookup. split_and!; try done; try lia.
      left. split; [done|]. by exists d, h, dd.
    + apply returns_ret.
      split; [by dict_lookup|].
      exists cid, r, (mkDatetime y m dy 10 0 0 0), "Pending".
      unfold delivery_ok. dict_lookup. split_and!; try done; try lia.
      by right.
  - intros o Ho. apply returns_ret. apply Forall2_app; [done|].
    by constructor.
Qed.

Lemma gen_orders_spec :
  returns gen_orders (Forall2 order_ok (range 5001 5030)).
Proof.
  apply (returns_for_each (Forall2 order_ok)); [constructor|].
  intros done i rest l _ Hl. by apply order_body_spec.
Qed.

(** ** The order-item loops *)

Lemma ids_from_snoc (c0 : Z) (items : list dict) (it : dict) :
  ids_from c0 items ->
  it !! "order_item_id" = Some (VInt (c0 + Z.of_nat (length items))) ->
  ids_from c0 (items ++ [it]).
Proof.
  intros Hids Hit k it' Hk.
  apply lookup_app_Some in Hk as [Hk | [Hge Hk]]; [by apply Hids|].
  apply list_lookup_singleton_Some in Hk as [Hk0 <-].
  replace k with (length items) by lia. done.
Qed.

Section OrderItems.
Variable products : list dict.
Hypothesis products_nonempty : products <> [].
Hypothesis products_keys : Forall product_keys products.

Lemma item_body_spec (order : dict) (items0 : list dict)
    (done : list Z) (x : Z) (st : Z * list dict) :
  order_keys order ->
  inner_inv products order items0 done st ->
  returns (item_body products order x st)
          (inner_inv products order items0 (done ++ [x])).
Proof.
  intros [oid Eoid] (Hcnt & Hids & block & Hitems & Hlen & Hblock).
  destruct st as [cnt items]. simpl in Hcnt, Hids, Hitems.
  unfold item_body.
  eapply returns_bind; [by apply returns_choice|]. intros p Hp.
  eapply returns_bind; [apply returns_randint; lia|]. intros q Hq.
  cbv beta in Hp, Hq.
  destruct (proj1 (List.Forall_forall _ _) products_keys p
              (proj1 (list_elem_of_In _ _) Hp))
    as [[price Eprice] [pid Epid]].
  eapply returns_bind; [by apply returns_getitem|]. intros ? ->.
  eapply returns_bind; [by apply returns_getitem|]. intros ? ->.
  eapply returns_bind; [by apply returns_getitem|]. intros ? ->.
  apply returns_ret. unfold inner_inv. cbn [fst snd].
  split_and!.
  - rewrite length_app. simpl. lia.
  - apply ids_from_snoc; [done|]. dict_lookup. by rewrite Hcnt.
  - eexists (block ++ [_]). split_and!.
    + by rewrite Hitems, app_assoc.
    + rewrite !length_app. simpl. lia.
    + apply Forall_app. split; [done|]. constructor; [|constructor].
      unfold item_ok. dict_lookup. split_and!; [by rewrite Eoid | | by eauto].
      exists p. by rewrite Eprice, Epid.
Qed.

Lemma order_items_body_spec (done : list dict) (order : dict)
    (st : Z * list dict) :
  order_keys order ->
  items_inv products done st ->
  returns (order_items_body products order st)
          (items_inv products (done ++ [order])).
Proof.
  intros Hkeys (Hcnt & Hids & blocks & Hitems & Hblocks).
  unfold order_items_body.
  eapply returns_bind; [apply returns_randint; lia|]. intros n Hn.
  cbv beta in Hn.
  eapply returns_mono.
  - apply (returns_for_each (inner_inv products order st.2)).
    + split_and!; [done..|]. exists []. by rewrite app_nil_r.
    + intros dn x rest s _ Hinv. by apply item_body_spec.
  - intros s (Hcnt' & Hids' & block & Hs & Hlen & Hblock).
    split_and!; [done..|].
    exists (blocks ++ [block]). split.
    + by rewrite concat_app, Hs, Hitems; simpl; rewrite app_nil_r.
    + apply Forall2_app; [done|]. constructor; [|constructor].
      split; [|done]. rewrite Hlen. unfold range.
      rewrite length_seqZ. lia.
Qed.

(** The number of items an order gets is the number drawn on line 60: one
    pass of the outer loop reads the next raw draw [r] and appends
    [1 + r mod 5] items. *)
Lemma item_body_appends_one (order : dict) (x : Z) (st : Z * list dict) :
  order_keys order ->
  returns (item_body products order x st)
          (fun st' => length st'.2 = S (length st.2)).
Proof.
  intros [oid Eoid]. destruct st as [cnt items]. unfold item_body.
  eapply returns_bind; [by apply returns_choice|]. intros p Hp.
  eapply returns_bind; [apply returns_randint; lia|]. intros q _.
  cbv beta in Hp.
  destruct (proj1 (List.Forall_forall _ _) products_keys p
              (proj1 (list_elem_of_In _ _) Hp))
    as [[price Eprice] [pid Epid]].
  eapply returns_bind; [by apply returns_getitem|]. intros ? ->.
  eapply returns_bind; [by apply returns_getitem|]. intros ? ->.
  eapply returns_bind; [by apply returns_getitem|]. intros ? ->.
  apply returns_ret. cbn [snd]. rewrite length_app. simpl. lia.
Qed.

Lemma order_items_body_count (order : dict) (st : Z * list dict) (w : World) :
  order_keys order ->
  exists st' w',
    order_items_body products order st w = Ok (st', w') /\
    length st'.2 =
      (length st.2 + Z.to_nat (1 + rand_tape w (rand_pos w) mod 5))%nat.
Proof.
  intros Hkey. unfold order_items_body, randint.
  change (0 <? 5 + 1 - 1) with true. cbv iota.
  unfold bind at 1. unfold bind at 1. unfold randbelow at 1, ret at 1.
  change (5 + 1 - 1) with 5.
  set (n := 1 + rand_tape w (rand_pos w) mod 5).
  set (w1 := mkWorld _ _ _ _).
  assert (Hloop : returns
            (for_each (range 0 n) (item_body products order) st)
            (fun st' => length st'.2
                        = (length st.2 + length (range 0 n))%nat)).
  { apply (returns_for_each
             (fun done st' =>
                length st'.2 = (length st.2 + length done)%nat));
      [simpl; lia|].
    intros dn x rest s _ Hs. eapply returns_mono.
    - by apply item_body_appends_one.
    - intros s' Hs'. rewrite Hs', Hs, length_app. simpl. lia. }
  destruct (Hloop w1) as (st' & w' & E & Hlen).
  exists st', w'. split; [done|].
  rewrite Hlen. unfold range. rewrite length_seqZ. f_equal. lia.
Qed.

Lemma gen_order_items_spec (orders : list dict) :
  Forall order_keys orders ->
  returns (gen_order_items orders products) (items_inv products orders).
Proof.
  intros Hkeys. apply (returns_for_each (items_inv products)).
  - split_and!; [done| |by exists []].
    intros k it Hk. simpl in Hk. by rewrite lookup_nil in Hk.
  - intros done order rest s Horders Hinv.
    apply order_items_body_spec; [|done].
    rewrite Horders in Hkeys.
    apply Forall_app in Hkeys as [_ Hkeys].
    by apply Forall_cons in Hkeys as [? _].
Qed.
End OrderItems.

(** ** The whole generation *)

Lemma Forall2_right {A B} (P : A -> B -> Prop) (Q : B -> Prop)
    (l : list A) (k : list B) :
  (forall x y, P x y -> Q y) -> Forall2 P l k -> Forall Q k.
Proof. intros HPQ H. induction H; constructor; eauto. Qed.

Lemma Forall2_range_lookup {B} (P : Z -> B -> Prop) (a b : Z) (l : list B) :
  Forall2 P (range a b) l ->
  forall (k : nat) (y : B), l !! k = Some y -> P (a + Z.of_nat k) y.
Proof.
  intros H k y Hk.
  destruct (Forall2_lookup_r _ _ _ _ _ H Hk) as (x & Hx & HP).
  unfold range in Hx. apply lookup_seqZ in Hx as [-> _]. done.
Qed.

Lemma Forall2_range_length {B} (P : Z -> B -> Prop) (a b : Z) (l : list B) :
  Forall2 P (range a b) l -> length l = Z.to_nat (b - a).
Proof.
  intros H. apply Forall2_length in H. unfold range in H.
  by rewrite length_seqZ in H.
Qed.

Lemma generate_spec : returns generate samples_ok.
Proof.
  unfold generate.
  eapply returns_bind; [apply gen_customers_spec|]. intros customers Hc.
  eapply returns_bind; [apply gen_products_spec|]. intros products Hp.
  eapply returns_bind; [apply gen_orders_spec|]. intros orders Ho.
  eapply returns_bind.
  - apply (gen_order_items_spec products).
    + apply Forall2_range_length in Hp. by destruct products.
    + eapply Forall2_right; [|exact Hp].
      intros i p (Eid & _ & _ & (price & Eprice & _) & _).
      split; by eexists.
    + eapply Forall2_right; [|exact Ho].
      intros i o (Eid & _). by eexists.
  - intros [cnt items] Hinv. by apply returns_ret.
Qed.

(** Every run ends with module-level variables that satisfy [samples_ok]. *)
Lemma generate_total (w : World) :
  exists s w', generate w = Ok (s, w') /\ samples_ok s.
Proof. apply generate_spec. Qed.

(** ** Columns of identifiers *)

Lemma column_ids (k : string) (ids : list Z) (l : list dict) :
  Forall2 (fun i d => d !! k = Some (VInt i)) ids l ->
  column k l = map Some ids.
Proof.
  unfold column. induction 1 as [|i d ids l Hd _ IH]; [done|].
  simpl. unfold int_at at 1. by rewrite Hd, IH.
Qed.

Lemma column_lookup (k : string) (l : list dict) (ids : list Z)
    (n : nat) (d : dict) (z : Z) :
  column k l = map Some ids ->
  l !! n = Some d -> ids !! n = Some z -> int_at k d = Some z.
Proof.
  intros Hcol Hd Hz.
  assert (H : column k l !! n = Some (int_at k d)).
  { unfold column. by rewrite list_lookup_fmap, Hd. }
  rewrite Hcol, list_lookup_fmap, Hz in H. simpl in H. congruence.
Qed.

(** ** Customers: identifiers and e-mail addresses *)

(** C6. The customer identifiers, read along the list in the order the
    customers were appended, are exactly 1, 2, ..., 24: the customer at
    index k has identifier k + 1, and there are 24 customers. *)
Theorem C6_customer_ids_contiguous (w : World) :
  exists s w',
    generate w = Ok (s, w') /\
    column "customer_id" (sample_customers_list s) = map Some (seqZ 1 24) /\
    length (sample_customers_list s) = 24%nat.
Proof.
  destruct (generate_total w) as (s & w' & E & Hc & _).
  exists s, w'. split; [done|]. split.
  - apply column_ids. eapply Forall2_impl; [exact Hc|].
    by intros i c [Hid _].
  - by apply Forall2_range_length in Hc.
Qed.

Lemma lower_ascii_space (c : ascii) :
  Ascii.eqb (lower_ascii c) " " = Ascii.eqb c " ".
Proof. by destruct c as [[] [] [] [] [] [] [] []]. Qed.

Lemma append_empty_l (s : string) : "" +:+ s = s.
Proof. reflexivity. Qed.

Lemma str_lower_replace_comm (s : string) :
  str_lower (str_replace " " "" s) = str_replace " " "" (str_lower s).
Proof.
  induction s as [|c s IH]; [done|].
  cbn [str_replace str_lower]. rewrite lower_ascii_space.
  destruct (Ascii.eqb c " "); rewrite ?append_empty_l; cbn [str_lower];
    by rewrite IH.
Qed.

Lemma str_replace_space_chars (s : string) :
  list_ascii_of_string (str_replace " " "" s) =
  List.filter (fun c => negb (Ascii.eqb c " ")) (list_ascii_of_string s).
Proof.
  induction s as [|c s IH]; [done|].
  cbn [str_replace list_ascii_of_string List.filter].
  destruct (Ascii.eqb c " "); rewrite ?append_empty_l;
    cbn [negb list_ascii_of_string]; by rewrite IH.
Qed.

Lemma str_lower_chars (s : string) :
  list_ascii_of_string (str_lower s) = map lower_ascii (list_ascii_of_string s).
Proof. induction s as [|c s IH]; [done|]. simpl. by rewrite IH. Qed.

(** C7. Every customer's e-mail is the customer's name with every space
    removed and the rest lower-cased, then "@", then one of the three fixed
    domains. Removing the spaces and lower-casing commute, so either order
    of the two steps gives the same local part. *)
Theorem C7_email_from_name (w : World) :
  exists s w',
    generate w = Ok (s, w') /\
    Forall
      (fun c =>
         exists name domain local,
           c !! "name" = Some (VStr name) /\
           c !! "email" = Some (VStr (local +:+ "@" +:+ domain)) /\
           domain ∈ ["hotmail.com"; "gmail.com"; "coldmail.com"] /\
           local = str_lower (str_replace " " "" name) /\
           local = str_replace " " "" (str_lower name) /\
           list_ascii_of_string local =
             map lower_ascii
                 (List.filter (fun ch => negb (Ascii.eqb ch " "))
                              (list_ascii_of_string name)))
      (sample_customers_list s).
Proof.
  destruct (generate_total w) as (s & w' & E & Hc & _).
  exists s, w'. split; [done|].
  eapply Forall2_right; [|exact Hc].
  intros i c (_ & name & domain & Hname & Hdom & Hemail).
  exists name, domain, (str_lower (str_replace " " "" name)).
  split_and!; try done.
  - apply str_lower_replace_comm.
  - by rewrite str_lower_chars, str_replace_space_chars.
Qed.

(** ** Products *)

(** C4. The product identifiers are exactly 101, 102, ..., 122 in list
    order; the product at offset k carries the name and the category found
    at offset k of the two static lists; every price lies in [30, 1200] and
    every stock quantity in [20, 90]. *)
Theorem C4_products_from_parallel_lists (w : World) :
  exists s w',
    generate w = Ok (s, w') /\
    column "product_id" (sample_products_list s) = map Some (seqZ 101 22) /\
    Forall2
      (fun p nc =>
         p !! "product_name" = Some (VStr nc.1) /\
         p !! "category" = Some (VStr nc.2))
      (sample_products_list s) (zip product_names product_categories) /\
    Forall
      (fun p =>
         (exists price, p !! "price" = Some (VInt price) /\
                        30 <= price <= 1200) /\
         (exists stock, p !! "stock_quantity" = Some (VInt stock) /\
                        20 <= stock <= 90))
      (sample_products_list s).
Proof.
  destruct (generate_total w) as (s & w' & E & _ & Hp & _).
  exists s, w'. split; [done|]. split_and!.
  - apply column_ids. eapply Forall2_impl; [exact Hp|].
    by intros i p [Hid _].
  - apply Forall2_same_length_lookup_2.
    + by rewrite (Forall2_range_length _ _ _ _ Hp).
    + intros k p [name cat] Hk Hzip.
      apply lookup_zip_with_Some in Hzip
        as (name' & cat' & [= -> ->] & Hname & Hcat).
      pose proof (Forall2_range_lookup _ _ _ _ Hp k p Hk)
        as (_ & (n & Hn & Epn) & (c & Hc & Epc) & _).
      replace (Z.to_nat (101 + Z.of_nat k - 101)) with k in Hn, Hc by lia.
      simpl. split; congruence.
  - eapply Forall2_right; [|exact Hp].
    by intros i p (_ & _ & _ & Hprice & Hstock).
Qed.

(** ** Orders: the delivery date *)

Lemma compare_refl (a : datetime) : compare a a = Eq.
Proof.
  unfold compare. induction (fields a) as [|x xs IH]; [done|].
  by rewrite lex_compare_refl_cons.
Qed.

Lemma two_hours_le (d h : Z) :
  0 <= d -> 2 <= h ->
  td_leb (timedelta_of 0 2) (timedelta_of d h) = true.
Proof.
  intros Hd Hh. unfold td_leb, td_fields, timedelta_of.
  cbn [td_days td_seconds td_microseconds lex_compare].
  change (0 + 2 * 3600 / 86400) with 0.
  change (2 * 3600 mod 86400) with 7200.
  destruct (Z.compare_spec 0 (d + h * 3600 / 86400)) as [E|E|E].
  - destruct (Z.compare_spec 7200 (h * 3600 mod 86400)) as [E'|E'|E'];
      [done..|]. exfalso. dlia.
  - done.
  - exfalso. dlia.
Qed.

(** C1. An order has the key delivery_date exactly when its status is
    "Delivered"; a "Pending" order has no such key at all (the lookup finds
    nothing, not a null value); and a delivery date that is present is a
    datetime not earlier than the order date. *)
Theorem C1_delivery_date_iff_delivered (w : World) :
  exists s w',
    generate w = Ok (s, w') /\
    Forall
      (fun o =>
         (is_Some (o !! "delivery_date") <->
          o !! "status" = Some (VStr "Delivered")) /\
         (o !! "delivery_date" = None <->
          o !! "status" = Some (VStr "Pending")) /\
         exists od,
           o !! "order_date" = Some (VDatetime od) /\
           (o !! "delivery_date" = None \/
            exists dd, o !! "delivery_date" = Some (VDatetime dd) /\
                       leb od dd = true))
      (sample_orders_list s).
Proof.
  destruct (generate_total w) as (s & w' & E & _ & _ & Ho & _).
  exists s, w'. split; [done|].
  eapply Forall2_right; [|exact Ho].
  intros i o (_ & cid & r & od & st & _ & _ & _ & _ & Hod & Hst & Hdel).
  destruct Hdel as [[-> (d & h & dd & _ & _ & _ & Hdd & Hlt & _)]
                   | [-> Hnone]].
  - rewrite Hdd, Hst. split_and!.
    + split; [done | by eexists].
    + split; intros [=].
    + exists od. split; [done|]. right. exists dd. split; [done|].
      unfold leb. by rewrite Hlt.
  - rewrite Hnone, Hst. split_and!.
    + split; [by intros [? [=]] | intros [=]].
    + done.
    + exists od. by split; [|left].
Qed.

(** C9. A delivery date that is present is strictly later than the order
    date: it is the order date plus d days and h hours with d in [0, 7] and
    h in [2, 24], the two dates differ, and their difference is that
    duration, which is at least two hours. *)
Theorem C9_delivery_strictly_after_order (w : World) :
  exists s w',
    generate w = Ok (s, w') /\
    Forall
      (fun o =>
         o !! "delivery_date" = None \/
         exists od dd d h,
           o !! "order_date" = Some (VDatetime od) /\
           o !! "delivery_date" = Some (VDatetime dd) /\
           0 <= d <= 7 /\ 2 <= h <= 24 /\
           add od (timedelta_of d h) = Ok dd /\
           ltb od dd = true /\
           dd <> od /\
           sub dd od = timedelta_of d h /\
           td_leb (timedelta_of 0 2) (sub dd od) = true)
      (sample_orders_list s).
Proof.
  destruct (generate_total w) as (s & w' & E & _ & _ & Ho & _).
  exists s, w'. split; [done|].
  eapply Forall2_right; [|exact Ho].
  intros i o (_ & cid & r & od & st & _ & _ & _ & _ & Hod & Hst & Hdel).
  destruct Hdel as [[-> (d & h & dd & Hd & Hh & Hadd & Hdd & Hlt & Hsub)]
                   | [-> Hnone]]; [right | by left].
  exists od, dd, d, h. split_and!; try done; try lia.
  - unfold ltb. by rewrite Hlt.
  - intros ->. by rewrite compare_refl in Hlt.
  - rewrite Hsub. apply two_hours_le; lia.
Qed.

(** ** Order items *)

Lemma ids_from_column (c0 : Z) (items : list dict) :
  ids_from c0 items ->
  column "order_item_id" items =
  map Some (seqZ c0 (Z.of_nat (length items))).
Proof.
  intros Hids. apply column_ids. apply Forall2_same_length_lookup_2.
  - rewrite length_seqZ. lia.
  - intros k id it Hid Hit. apply lookup_seqZ in Hid as [-> _].
    by apply Hids.
Qed.

(** C2. The item identifiers, read along the whole flattened list, are
    exactly 9001, 9002, ... with one identifier per item (the item at index
    k has identifier 9001 + k), and the shared counter ends at 9001 plus the
    number of items: it went up by one for each item appended. *)
Theorem C2_order_item_ids_contiguous (w : World) :
  exists s w',
    generate w = Ok (s, w') /\
    column "order_item_id" (sample_order_items_list s) =
      map Some (seqZ 9001 (Z.of_nat (length (sample_order_items_list s)))) /\
    order_item_id s = 9001 + Z.of_nat (length (sample_order_items_list s)).
Proof.
  destruct (generate_total w) as (s & w' & E & _ & _ & _ & Hcnt & Hids & _).
  exists s, w'. split; [done|]. split; [|done].
  by apply ids_from_column.
Qed.

Lemma int_at_Some (k : string) (d : dict) (z : Z) :
  int_at k d = Some z <-> d !! k = Some (VInt z).
Proof.
  unfold int_at. destruct (d !! k) as [[]|]; split; congruence.
Qed.

Lemma has_int_true (k : string) (z : Z) (d : dict) :
  has_int k z d = true <-> int_at k d = Some z.
Proof.
  unfold has_int. destruct (int_at k d) as [z'|]; [|done].
  rewrite Z.eqb_eq. split; congruence.
Qed.

Lemma seqZ_strongly_sorted (m n : Z) : StronglySorted Z.lt (seqZ m n).
Proof.
  remember (Z.to_nat n) as len eqn:Hlen. revert m n Hlen.
  induction len as [|len IH]; intros m n Hlen.
  - rewrite seqZ_nil by lia. constructor.
  - rewrite seqZ_cons by lia. constructor.
    + apply IH. lia.
    + apply Forall_forall. intros x Hx. apply elem_of_seqZ in Hx. lia.
Qed.

(** The items, block by block: one block per order, in the order of the
    order list. *)
Lemma items_blocks (s : Samples) :
  samples_ok s ->
  exists blocks,
    sample_order_items_list s = concat blocks /\
    Forall2 block_of (seqZ 5001 29) blocks /\
    Forall2 (block_ok (sample_products_list s)) (sample_orders_list s) blocks.
Proof.
  intros (_ & _ & Ho & _ & _ & blocks & Hitems & Hblocks).
  exists blocks. split; [done|]. split; [|done].
  apply Forall2_same_length_lookup_2.
  - rewrite <- (Forall2_length _ _ _ Hblocks), <- (Forall2_length _ _ _ Ho).
    done.
  - intros n id b Hid Hb. apply lookup_seqZ in Hid as [-> _].
    destruct (Forall2_lookup_r _ _ _ _ _ Hblocks Hb) as (o & Hon & Hlen & Hall).
    pose proof (Forall2_range_lookup _ _ _ _ Ho n o Hon) as [Hoid _].
    split; [done|].
    eapply Forall_impl; [exact Hall|].
    intros it (Hit & _). apply int_at_Some. by rewrite Hit.
Qed.

Lemma items_of_all (id : Z) (b : list dict) :
  Forall (fun it => int_at "order_id" it = Some id) b -> items_of id b = b.
Proof.
  unfold items_of. induction 1 as [|it b Hit _ IH]; [done|].
  simpl. apply has_int_true in Hit. by rewrite Hit, IH.
Qed.

Lemma items_of_none (id id' : Z) (b : list dict) :
  id <> id' ->
  Forall (fun it => int_at "order_id" it = Some id') b -> items_of id b = [].
Proof.
  intros Hne. unfold items_of. induction 1 as [|it b Hit _ IH]; [done|].
  simpl. destruct (has_int "order_id" id it) eqn:E; [|done].
  apply has_int_true in E. congruence.
Qed.

Lemma items_of_app (id : Z) (a b : list dict) :
  items_of id (a ++ b) = items_of id a ++ items_of id b.
Proof. apply List.filter_app. Qed.

Lemma items_of_concat_none (id : Z) (ids : list Z) (blocks : list (list dict)) :
  id ∉ ids -> Forall2 block_of ids blocks -> items_of id (concat blocks) = [].
Proof.
  intros Hid H. induction H as [|id' b ids blocks [_ Hb] _ IH]; [done|].
  apply not_elem_of_cons in Hid as [Hne Hid]. simpl.
  by rewrite items_of_app, (items_of_none id id' b), IH.
Qed.

Lemma items_of_concat (ids : list Z) (blocks : list (list dict)) :
  NoDup ids -> Forall2 block_of ids blocks ->
  forall (n : nat) (id : Z) (b : list dict),
    ids !! n = Some id -> blocks !! n = Some b ->
    items_of id (concat blocks) = b.
Proof.
  intros Hnd H. induction H as [|id0 b0 ids blocks [_ Hb0] Hrest IH];
    intros n id b Hid Hb; [done|].
  apply NoDup_cons in Hnd as [Hnotin Hnd]. simpl. rewrite items_of_app.
  destruct n as [|n]; simpl in Hid, Hb.
  - injection Hid as <-. injection Hb as <-.
    by rewrite items_of_all, (items_of_concat_none id0 ids blocks), app_nil_r.
  - assert (id <> id0).
    { intros ->. apply Hnotin. by eapply list_elem_of_lookup_2. }
    rewrite (items_of_none id id0 b0) by done. simpl. by eapply IH.
Qed.

Lemma by_id_lookup (k : string) (l : list dict) (ids : list Z)
    (n : nat) (d : dict) (z : Z) :
  column k l = map Some ids -> NoDup ids ->
  l !! n = Some d -> ids !! n = Some z -> by_id k z l = Some d.
Proof.
  unfold by_id, column. revert ids n.
  induction l as [|d0 l IH]; intros ids n Hcol Hnd Hd Hz; [done|].
  destruct ids as [|z0 ids]; [done|]. simpl in Hcol.
  injection Hcol as Hd0 Hcol. apply NoDup_cons in Hnd as [Hnotin Hnd].
  destruct n as [|n]; simpl in Hd, Hz; simpl.
  - injection Hd as <-. injection Hz as <-.
    by rewrite (proj2 (has_int_true k z0 d0) Hd0).
  - destruct (has_int k z d0) eqn:E.
    + apply has_int_true in E. exfalso. apply Hnotin.
      replace z0 with z by congruence. by eapply list_elem_of_lookup_2.
    + by eapply IH.
Qed.

(** Each order's item count is the length of its block. *)
Lemma item_count_block (s : Samples) (blocks : list (list dict)) :
  samples_ok s ->
  sample_order_items_list s = concat blocks ->
  Forall2 block_of (seqZ 5001 29) blocks ->
  Forall2 (fun o b => item_count (sample_order_items_list s) o = length b /\
                      (1 <= length b <= 5)%nat)
          (sample_orders_list s) blocks.
Proof.
  intros (_ & _ & Ho & _) Hitems Hblocks.
  apply Forall2_same_length_lookup_2.
  - rewrite <- (Forall2_length _ _ _ Ho), <- (Forall2_length _ _ _ Hblocks).
    done.
  - intros n o b Hon Hb.
    pose proof (Forall2_range_lookup _ _ _ _ Ho n o Hon) as [Hoid _].
    destruct (Forall2_lookup_r _ _ _ _ _ Hblocks Hb) as (id & Hid & Hlen & _).
    pose proof Hid as Hid'. apply lookup_seqZ in Hid' as [-> _].
    unfold item_count. rewrite (proj2 (int_at_Some _ _ _) Hoid), Hitems.
    rewrite (items_of_concat _ _ (NoDup_seqZ _ _) Hblocks n _ b Hid Hb).
    done.
Qed.

Lemma sum_item_counts (items : list dict) (orders : list dict)
    (blocks : list (list dict)) :
  Forall2 (fun o b => item_count items o = length b /\
                      (1 <= length b <= 5)%nat) orders blocks ->
  sum_list (item_count items <$> orders) = length (concat blocks) /\
  (length orders <= length (concat blocks) <= 5 * length orders)%nat.
Proof.
  induction 1 as [|o b orders blocks [Hc Hb] _ [IH1 IH2]]; [simpl; lia|].
  csimpl. rewrite !length_app, Hc, IH1. lia.
Qed.

Lemma column_replicate (id : Z) (b : list dict) :
  Forall (fun it => int_at "order_id" it = Some id) b ->
  column "order_id" b = map Some (replicate (length b) id).
Proof.
  unfold column. induction 1 as [|it b Hit _ IH]; [done|].
  simpl. by rewrite Hit, IH.
Qed.

Lemma replicate_sorted (n : nat) (id : Z) :
  StronglySorted Z.le (replicate n id).
Proof.
  induction n as [|n IH]; simpl; constructor; [done|].
  apply Forall_forall. intros x Hx. apply elem_of_replicate in Hx. lia.
Qed.

(** The order_id column of a concatenation of blocks whose identifiers
    increase. *)
Lemma blocks_column_sorted (ids : list Z) (blocks : list (list dict)) :
  StronglySorted Z.lt ids -> Forall2 block_of ids blocks ->
  exists col,
    column "order_id" (concat blocks) = map Some col /\
    Forall (fun z => z ∈ ids) col /\
    StronglySorted Z.le col.
Proof.
  intros Hsorted H. induction H as [|id b ids blocks [_ Hb] _ IH].
  - exists []. split_and!; [done | constructor | constructor].
  - apply StronglySorted_cons in Hsorted as [Hlt Hsorted].
    destruct (IH Hsorted) as (col & Hcol & Hin & Hss).
    exists (replicate (length b) id ++ col). split_and!.
    + simpl. unfold column in *.
      by rewrite !map_app, Hcol, <- (column_replicate id b Hb).
    + apply Forall_app. split.
      * apply Forall_forall. intros x Hx.
        apply elem_of_replicate in Hx as [-> _]. by left.
      * eapply Forall_impl; [exact Hin|]. intros x Hx. by right.
    + apply StronglySorted_app_2; [|apply replicate_sorted|done].
      intros x1 x2 Hx1 Hx2. apply elem_of_replicate in Hx1 as [-> _].
      rewrite Forall_forall in Hlt, Hin.
      specialize (Hlt x2 (Hin x2 Hx2)). lia.
Qed.

(** C3. Every item names an order of the order list by its order_id and a
    product of the product list by its product_id, carries the price stored
    in that product's record, and has a quantity in [1, 3]; every order got
    between one and five items. Products are drawn with replacement: there
    is a run in which the first two items belong to the same order and name
    the same product. *)
Theorem C3_items_reference_orders_and_products :
  (forall w : World,
     exists s w',
       generate w = Ok (s, w') /\
       Forall
         (fun it =>
            (exists oid o,
               int_at "order_id" it = Some oid /\
               by_id "order_id" oid (sample_orders_list s) = Some o) /\
            (exists pid p price,
               int_at "product_id" it = Some pid /\
               by_id "product_id" pid (sample_products_list s) = Some p /\
               int_at "price" p = Some price /\
               int_at "price" it = Some price) /\
            (exists q, int_at "quantity" it = Some q /\ 1 <= q <= 3))
         (sample_order_items_list s) /\
       Forall
         (fun o => (1 <= item_count (sample_order_items_list s) o <= 5)%nat)
         (sample_orders_list s)) /\
  (exists (w : World) s w' a b,
     generate w = Ok (s, w') /\
     sample_order_items_list s !! 0%nat = Some a /\
     sample_order_items_list s !! 1%nat = Some b /\
     int_at "order_id" a = Some 5001 /\ int_at "order_id" b = Some 5001 /\
     int_at "product_id" a = Some 102 /\ int_at "product_id" b = Some 102).
Proof.
  split.
  - intros w. destruct (generate_total w) as (s & w' & E & Hok).
    exists s, w'. split; [done|].
    destruct (items_blocks s Hok) as (blocks & Hitems & Hbl & Hblocks).
    pose proof (item_count_block s blocks Hok Hitems Hbl) as Hcount.
    destruct Hok as (_ & Hp & Ho & _).
    assert (Hpcol : column "product_id" (sample_products_list s)
                    = map Some (range 101 123)).
    { apply column_ids. eapply Forall2_impl; [exact Hp|]. by intros ?? [? _]. }
    assert (Hocol : column "order_id" (sample_orders_list s)
                    = map Some (range 5001 5030)).
    { apply column_ids. eapply Forall2_impl; [exact Ho|]. by intros ?? [? _]. }
    split.
    + rewrite Hitems. apply Forall_concat. apply Forall_lookup_2.
      intros n b Hb.
      destruct (Forall2_lookup_r _ _ _ _ _ Hblocks Hb) as (o & Hon & _ & Hall).
      pose proof (Forall2_range_lookup _ _ _ _ Ho n o Hon) as [Hoid _].
      eapply Forall_impl; [exact Hall|].
      intros it (Hio & (p & Hin & Hipid & Hiprice) & q & Hq & Hqr).
      apply list_elem_of_lookup_1 in Hin as [m Hpm].
      pose proof (Forall2_range_lookup _ _ _ _ Hp m p Hpm)
        as (Hpid & _ & _ & (price & Hprice & _) & _).
      split_and!.
      * exists (5001 + Z.of_nat n), o. split.
        -- apply int_at_Some. by rewrite Hio.
        -- apply (by_id_lookup _ _ (range 5001 5030) n); try done.
           ++ apply NoDup_seqZ.
           ++ apply (Forall2_lookup_r _ _ _ _ _ Ho) in Hon
                as (i & Hi & _).
              pose proof Hi as Hi'. unfold range in Hi'.
              apply lookup_seqZ in Hi' as [-> _]. done.
      * exists (101 + Z.of_nat m), p, price. split_and!.
        -- apply int_at_Some. by rewrite Hipid.
        -- apply (by_id_lookup _ _ (range 101 123) m); try done.
           ++ apply NoDup_seqZ.
           ++ apply (Forall2_lookup_r _ _ _ _ _ Hp) in Hpm
                as (i & Hi & _).
              pose proof Hi as Hi'. unfold range in Hi'.
              apply lookup_seqZ in Hi' as [-> _]. done.
        -- by apply int_at_Some.
        -- apply int_at_Some. by rewrite Hiprice.
      * exists q. split; [by apply int_at_Some | done].
    + eapply Forall2_Forall_l; [exact Hcount|].
      apply Forall_forall. intros b _ o [-> Hlen]. done.
  - exists (world_const 1).
    assert (H : first_two_items_same 5001 102 (generate (world_const 1))
                = true) by (by vm_compute).
    destruct (generate (world_const 1)) as [[s w']|e]; [|done].
    simpl in H.
    destruct (sample_order_items_list s) as [|a [|b l]] eqn:El; try done.
    apply andb_prop in H as [H H4]. apply andb_prop in H as [H H3].
    apply andb_prop in H as [H1 H2].
    exists s, w', a, b. rewrite El.
    split_and!; try done; by apply has_int_true.
Qed.

(** C5. Whatever the draws, a run yields exactly 24 customers, 22 products
    and 29 orders; the order identifiers are 5001, ..., 5029 in list order,
    every status is "Delivered" or "Pending" and every customer_id lies in
    [1, 24]; the number of items is the sum over the orders of each order's
    item count, every count lies in [1, 5], and so the total lies in
    [29, 145]. *)
Theorem C5_collection_sizes (w : World) :
  exists s w',
    generate w = Ok (s, w') /\
    length (sample_customers_list s) = 24%nat /\
    length (sample_products_list s) = 22%nat /\
    length (sample_orders_list s) = 29%nat /\
    column "order_id" (sample_orders_list s) = map Some (seqZ 5001 29) /\
    Forall
      (fun o =>
         (exists st, o !! "status" = Some (VStr st) /\
                     st ∈ ["Delivered"; "Pending"]) /\
         (exists cid, int_at "customer_id" o = Some cid /\ 1 <= cid <= 24))
      (sample_orders_list s) /\
    length (sample_order_items_list s) =
      sum_list (item_count (sample_order_items_list s)
                  <$> sample_orders_list s) /\
    Forall
      (fun o => (1 <= item_count (sample_order_items_list s) o <= 5)%nat)
      (sample_orders_list s) /\
    (29 <= length (sample_order_items_list s) <= 145)%nat.
Proof.
  destruct (generate_total w) as (s & w' & E & Hok).
  exists s, w'. split; [done|].
  destruct (items_blocks s Hok) as (blocks & Hitems & Hbl & _).
  pose proof (item_count_block s blocks Hok Hitems Hbl) as Hcount.
  destruct (sum_item_counts _ _ _ Hcount) as [Hsum Hbounds].
  destruct Hok as (Hc & Hp & Ho & _).
  pose proof (Forall2_range_length _ _ _ _ Ho) as Hlen.
  rewrite Hlen, <- Hitems in Hbounds. simpl in Hbounds.
  split_and!; try lia.
  - by apply Forall2_range_length in Hc.
  - by apply Forall2_range_length in Hp.
  - apply column_ids. eapply Forall2_impl; [exact Ho|]. by intros ?? [? _].
  - eapply Forall2_right; [|exact Ho].
    intros i o (_ & cid & r & od & st & Hcid & Hrange & _ & _ & _ & Hst & Hdel).
    split.
    + exists st. split; [done|].
      destruct Hdel as [[-> _] | [-> _]]; rewrite !elem_of_cons; tauto.
    + exists cid. split; [by apply int_at_Some | done].
  - by rewrite Hsum, Hitems.
  - eapply Forall2_Forall_l; [exact Hcount|].
    apply Forall_forall. intros b _ o [-> Hb]. done.
Qed.

(** C10. The item list is the concatenation of 29 non-empty blocks, one
    per order identifier 5001, ..., 5029 in increasing order, and the block
    of an identifier holds exactly the items carrying it; hence the order_id
    column of the item list is sorted in non-decreasing order. *)
Theorem C10_items_grouped_by_order (w : World) :
  exists s w' blocks col,
    generate w = Ok (s, w') /\
    sample_order_items_list s = concat blocks /\
    Forall2
      (fun id b =>
         b <> [] /\
         Forall (fun it => int_at "order_id" it = Some id) b /\
         items_of id (sample_order_items_list s) = b)
      (seqZ 5001 29) blocks /\
    column "order_id" (sample_order_items_list s) = map Some col /\
    StronglySorted Z.le col.
Proof.
  destruct (generate_total w) as (s & w' & E & Hok).
  destruct (items_blocks s Hok) as (blocks & Hitems & Hbl & _).
  destruct (blocks_column_sorted _ _ (seqZ_strongly_sorted 5001 29) Hbl)
    as (col & Hcol & _ & Hsorted).
  exists s, w', blocks, col. rewrite Hitems. split_and!; try done.
  apply Forall2_same_length_lookup_2; [by eapply Forall2_length|].
  intros n id b Hid Hb.
  destruct (Forall2_lookup_lr _ _ _ _ _ _ Hbl Hid Hb) as [Hlen Hall].
  split_and!; [|done|].
  - intros ->. simpl in Hlen. lia.
  - by apply (items_of_concat _ _ (NoDup_seqZ _ _) Hbl n).
Qed.

(** ** The serialiser *)

(** C8. The serialiser returns a string exactly for the datetimes, and
    then the ISO-8601 rendering of the value; on a value of any other type
    it raises TypeError, and the dump that called it ends with that
    exception and no document. *)
Theorem C8_custom_serializer (obj : pyval) :
  ((exists d, obj = VDatetime d) <->
   (exists text, custom_serializer obj = Ok text)) /\
  (forall d, obj = VDatetime d -> custom_serializer obj = Ok (isoformat d)) /\
  ((forall d, obj <> VDatetime d) ->
   custom_serializer obj = Raise (TypeError "Type not serializable")) /\
  (forall type_name,
     obj = VOther type_name ->
     json_encode custom_serializer obj =
       Raise (TypeError "Type not serializable")).
Proof.
  split_and!.
  - split.
    + intros [d ->]. by eexists.
    + intros [text H]. destruct obj; try done. by eexists.
  - by intros d ->.
  - intros H. destruct obj; try done. by destruct (H d).
  - by intros t ->.
Qed.

(** ** The dumps never raise on what the generator builds *)

Lemma returns_conj {A} (m : M A) (P Q : A -> Prop) :
  returns m P -> returns m Q -> returns m (fun a => P a /\ Q a).
Proof.
  intros HP HQ w. destruct (HP w) as (a & w1 & E1 & Ha).
  destruct (HQ w) as (a' & w2 & E2 & Ha').
  rewrite E1 in E2. injection E2 as <- <-. by exists a, w1.
Qed.

Lemma encode_scalar (v : pyval) :
  scalar v -> exists j, json_encode custom_serializer v = Ok j.
Proof. destruct v; try done; intros _; by eexists. Qed.

Lemma encode_dict (m : dict) :
  map_Forall (fun _ x => exists j, json_encode custom_serializer x = Ok j) m ->
  exists j, json_encode custom_serializer (VDict m) = Ok j.
Proof.
  intros Hm. cbn [json_encode].
  match goal with
  | |- context [map_fold ?f ?b m] =>
      assert (H : exists js, map_fold f b m = Ok js)
  end.
  { revert Hm.
    apply (map_fold_weak_ind
             (fun r m' =>
                map_Forall (fun _ x => exists j,
                              json_encode custom_serializer x = Ok j) m' ->
                exists js, r = Ok js)).
    - intros _. by eexists.
    - intros k x m' r Hk IH Hall.
      apply map_Forall_insert in Hall as [[j Hj] Hall]; [|done].
      destruct (IH Hall) as [js ->]. simpl. rewrite Hj. by eexists. }
  destruct H as [js ->]. by eexists.
Qed.

Lemma encode_plain (v : pyval) :
  plain v -> exists j, json_encode custom_serializer v = Ok j.
Proof.
  intros [Hs | (m & -> & Hm)]; [by apply encode_scalar|].
  apply encode_dict. eapply map_Forall_impl; [exact Hm|].
  intros k x. apply encode_scalar.
Qed.

Lemma json_dump_plain (l : list dict) :
  Forall record_plain l -> exists j, json_dump l = Ok j.
Proof.
  intros Hl. unfold json_dump. cbn [json_encode].
  match goal with
  | |- context [foldr ?f ?b (VDict <$> l)] =>
      assert (H : exists js, foldr f b (VDict <$> l) = Ok js)
  end.
  { induction Hl as [|d l Hd _ [js IH]]; [by eexists|].
    destruct (encode_dict d) as [j Hj].
    { eapply map_Forall_impl; [exact Hd|]. intros k x. apply encode_plain. }
    rewrite fmap_cons. cbn [foldr]. rewrite Hj, IH. by eexists. }
  destruct H as [js ->]. by eexists.
Qed.

Lemma customer_body_plain (i : Z) (l : list dict) :
  Forall record_plain l -> returns (customer_body i l) (Forall record_plain).
Proof.
  intros Hl. unfold customer_body.
  eapply returns_bind; [apply returns_faker_text|]. intros name _.
  eapply returns_bind; [apply returns_getitem; dict_lookup; reflexivity|].
  intros ? ->. cbn [as_str].
  eapply returns_bind; [apply returns_ret_eq|]. intros ? ->.
  eapply returns_bind; [by apply returns_choice|]. intros domain _.
  eapply returns_bind; [apply returns_randint; lia|]. intros house _.
  do 3 (eapply returns_bind; [apply returns_faker_text|]; intros ? _).
  apply returns_ret. apply Forall_app. split; [done|].
  constructor; [|constructor]. unfold record_plain. plain_literal.
  right. eexists. split; [reflexivity|]. by plain_literal.
Qed.

Lemma product_body_plain (i : Z) (l : list dict) :
  101 <= i < 123 ->
  Forall record_plain l -> returns (product_body i l) (Forall record_plain).
Proof.
  intros Hi Hl. unfold product_body.
  destruct (lookup_lt_is_Some_2 product_names (Z.to_nat (i - 101)))
    as [name Ename]; [simpl; lia|].
  destruct (lookup_lt_is_Some_2 product_categories (Z.to_nat (i - 101)))
    as [cat Ecat]; [simpl; lia|].
  eapply returns_bind; [by apply (returns_list_getitem _ _ name); [lia|]|].
  intros ? ->.
  eapply returns_bind; [by apply (returns_list_getitem _ _ cat); [lia|]|].
  intros ? ->.
  eapply returns_bind; [apply returns_randint; lia|]. intros price _.
  eapply returns_bind; [apply returns_randint; lia|]. intros stock _.
  apply returns_ret. apply Forall_app. split; [done|].
  constructor; [|constructor]. unfold record_plain. by plain_literal.
Qed.

Lemma order_body_plain (i : Z) (l : list dict) :
  Forall record_plain l -> returns (order_body i l) (Forall record_plain).
Proof.
  intros Hl. unfold order_body.
  eapply returns_bind; [apply returns_randint; lia|]. intros cid _.
  eapply returns_bind; [apply returns_randint; lia|]. intros r Hr.
  cbv beta in Hr.
  destruct (ord2ymd (738900 + r)) as [[y m] dy] eqn:E.
  pose proof (order_date_spec r y m dy Hr E) as Hod.
  eapply returns_bind; [by apply returns_lift|]. intros ? ->.
  eapply returns_bind; [by apply returns_choice|]. intros st _.
  eapply returns_bind; [apply returns_getitem; dict_lookup; reflexivity|].
  intros ? ->.
  apply (returns_bind _ _ record_plain).
  - destruct (py_eq_str (VStr st) "Delivered").
    + eapply returns_bind; [apply returns_getitem; dict_lookup; reflexivity|].
      intros ? ->. cbn [as_datetime].
      eapply returns_bind; [apply returns_ret_eq|]. intros ? ->.
      eapply returns_bind; [apply returns_randint; lia|]. intros d Hd.
      eapply returns_bind; [apply returns_randint; lia|]. intros h Hh.
      cbv beta in Hd, Hh.
      destruct (delivery_date_spec (738900 + r) y m dy d h ltac:(lia) E Hd Hh)
        as (dd & Hadd & _).
      eapply returns_bind; [by apply returns_lift|]. intros ? ->.
      apply returns_ret. unfold record_plain. by plain_literal.
    + apply returns_ret. unfold record_plain. by plain_literal.
  - intros o Ho. apply returns_ret. apply Forall_app. split; [done|].
    by constructor.
Qed.

Lemma item_body_plain (products : list dict) (order : dict)
    (x : Z) (st : Z * list dict) :
  products <> [] -> Forall product_keys products -> order_keys order ->
  Forall record_plain products -> record_plain order ->
  Forall record_plain st.2 ->
  returns (item_body products order x st)
          (fun st' => Forall record_plain st'.2).
Proof.
  intros Hne Hkeys [oid Eoid] Hplain Horder Hst.
  destruct st as [cnt items]. unfold item_body.
  eapply returns_bind; [by apply returns_choice|]. intros p Hp.
  eapply returns_bind; [apply returns_randint; lia|]. intros q _.
  cbv beta in Hp.
  destruct (proj1 (List.Forall_forall _ _) Hkeys p
              (proj1 (list_elem_of_In _ _) Hp))
    as [[price Eprice] [pid Epid]].
  pose proof (proj1 (Forall_forall _ _) Hplain p Hp) as Hpp.
  eapply returns_bind; [by apply returns_getitem|]. intros ? ->.
  eapply returns_bind; [by apply returns_getitem|]. intros ? ->.
  eapply returns_bind; [by apply returns_getitem|]. intros ? ->.
  apply returns_ret. cbn [snd]. apply Forall_app. split; [done|].
  constructor; [|constructor]. unfold record_plain. plain_literal.
  - by apply (Hpp "price").
  - by apply (Hpp "product_id").
  - by apply (Horder "order_id").
Qed.

Lemma gen_order_items_plain (products orders : list dict) :
  products <> [] -> Forall product_keys products ->
  Forall order_keys orders ->
  Forall record_plain products -> Forall record_plain orders ->
  returns (gen_order_items orders products)
          (fun st => Forall record_plain st.2).
Proof.
  intros Hne Hkeys Hokeys Hplain Hoplain.
  apply (returns_for_each (fun _ st => Forall record_plain st.2));
    [constructor|].
  intros done order rest st Horders Hst. unfold order_items_body.
  eapply returns_bind; [apply returns_randint; lia|]. intros n _.
  rewrite Horders in Hokeys, Hoplain.
  apply Forall_app in Hokeys as [_ Hokeys].
  apply Forall_cons in Hokeys as [Hokey _].
  apply Forall_app in Hoplain as [_ Hoplain].
  apply Forall_cons in Hoplain as [Hoplain _].
  apply (returns_for_each (fun _ st' => Forall record_plain st'.2));
    [done|].
  intros dn x rst st' _ Hst'. by apply item_body_plain.
Qed.

Lemma generate_plain : returns generate samples_plain.
Proof.
  unfold generate.
  eapply returns_bind.
  { apply (returns_for_each (fun _ => Forall record_plain)); [constructor|].
    intros done i rest l _ Hl. by apply customer_body_plain. }
  intros customers Hc.
  eapply returns_bind.
  { apply returns_conj; [apply gen_products_spec|].
    apply (returns_for_each (fun _ => Forall record_plain)); [constructor|].
    intros done i rest l Hsplit Hl.
    apply product_body_plain; [|done]. by eapply range_elem. }
  intros products [Hp Hpp].
  eapply returns_bind.
  { apply returns_conj; [apply gen_orders_spec|].
    apply (returns_for_each (fun _ => Forall record_plain)); [constructor|].
    intros done i rest l _ Hl. by apply order_body_plain. }
  intros orders [Ho Hop].
  eapply returns_bind.
  - apply gen_order_items_plain; try done.
    + apply Forall2_range_length in Hp. by destruct products.
    + eapply Forall2_right; [|exact Hp].
      intros i p (Eid & _ & _ & (price & Eprice & _) & _).
      split; by eexists.
    + eapply Forall2_right; [|exact Ho].
      intros i o (Eid & _). by eexists.
  - intros [cnt items] Hi. by apply returns_ret.
Qed.

(** The whole script runs to the end on every world and writes the four
    files: the serialiser's TypeError is never raised on generated data. *)
Lemma script_total :
  returns script
    (fun files =>
       map fst files =
       [ "./sample_data/customers_collection.json";
         "./sample_data/orders_collection.json";
         "./sample_data/products_collection.json";
         "./sample_data/order_items_collection.json" ]).
Proof.
  unfold script. eapply returns_bind; [apply generate_plain|].
  intros s (Hc & Ho & Hp & Hi). unfold save_all.
  destruct (json_dump_plain _ Hc) as [jc ->].
  destruct (json_dump_plain _ Ho) as [jo ->].
  destruct (json_dump_plain _ Hp) as [jp ->].
  destruct (json_dump_plain _ Hi) as [ji ->].
  by apply returns_ret.
Qed.

(** * Further properties of the script *)

(** ** A run, loop by loop *)

Lemma returns_elim {A} (m : M A) (P : A -> Prop) (w w' : World) (a : A) :
  returns m P -> m w = Ok (a, w') -> P a.
Proof.
  intros H E. destruct (H w) as (a' & w'' & E' & HP). congruence.
Qed.

Lemma generate_steps (w w' : World) (s : Samples) :
  generate w = Ok (s, w') ->
  exists w1 w2 w3,
    gen_customers w = Ok (sample_customers_list s, w1) /\
    gen_products w1 = Ok (sample_products_list s, w2) /\
    gen_orders w2 = Ok (sample_orders_list s, w3) /\
    gen_order_items (sample_orders_list s) (sample_products_list s) w3
      = Ok ((order_item_id s, sample_order_items_list s), w').
Proof.
  unfold generate, bind, ret. intros E.
  destruct (gen_customers w) as [[customers w1]|] eqn:Ec; [|discriminate].
  destruct (gen_products w1) as [[products w2]|] eqn:Ep; [|discriminate].
  destruct (gen_orders w2) as [[orders w3]|] eqn:Eo; [|discriminate].
  destruct (gen_order_items orders products w3) as [[[cnt items] w4]|] eqn:Ei;
    [|discriminate].
  injection E as <- <-. exists w1, w2, w3. cbn [sample_customers_list
    sample_products_list sample_orders_list sample_order_items_list
    order_item_id fst snd].
  repeat split; assumption.
Qed.

(** ** Exact shape of the records *)

Lemma gen_customers_shape : returns gen_customers (Forall customer_shape).
Proof.
  apply (returns_for_each (fun _ => Forall customer_shape)); [constructor|].
  intros done i rest l _ Hl. unfold customer_body.
  eapply returns_bind; [apply returns_faker_text|]. intros name _.
  eapply returns_bind; [apply returns_getitem; dict_lookup; reflexivity|].
  intros ? ->. cbn [as_str].
  eapply returns_bind; [apply returns_ret_eq|]. intros ? ->.
  eapply returns_bind; [by apply returns_choice|]. intros domain Hdom.
  eapply returns_bind; [apply returns_randint; lia|]. intros house Hhouse.
  eapply returns_bind; [apply returns_faker_text|]. intros street _.
  eapply returns_bind; [apply returns_faker_text|]. intros city _.
  eapply returns_bind; [apply returns_faker_text|]. intros state _.
  apply returns_ret. apply Forall_app. split; [done|].
  constructor; [|constructor].
  exists i, name, domain, house, street, city, state.
  split; [exact Hhouse|]. split; [exact Hdom | reflexivity].
Qed.

Lemma gen_products_shape : returns gen_products (Forall product_shape).
Proof.
  apply (returns_for_each (fun _ => Forall product_shape)); [constructor|].
  intros done i rest l Hsplit Hl. apply range_elem in Hsplit.
  unfold product_body.
  destruct (lookup_lt_is_Some_2 product_names (Z.to_nat (i - 101)))
    as [name Ename]; [simpl; lia|].
  destruct (lookup_lt_is_Some_2 product_categories (Z.to_nat (i - 101)))
    as [cat Ecat]; [simpl; lia|].
  eapply returns_bind; [by apply (returns_list_getitem _ _ name); [lia|]|].
  intros ? ->.
  eapply returns_bind; [by apply (returns_list_getitem _ _ cat); [lia|]|].
  intros ? ->.
  eapply returns_bind; [apply returns_randint; lia|]. intros price _.
  eapply returns_bind; [apply returns_randint; lia|]. intros stock _.
  apply returns_ret. apply Forall_app. split; [done|].
  constructor; [|constructor]. exists i, name, cat, price, stock.
  reflexivity.
Qed.

Lemma gen_orders_shape : returns gen_orders (Forall order_shape).
Proof.
  apply (returns_for_each (fun _ => Forall order_shape)); [constructor|].
  intros done i rest l _ Hl. unfold order_body.
  eapply returns_bind; [apply returns_randint; lia|]. intros cid _.
  eapply returns_bind; [apply returns_randint; lia|]. intros r Hr.
  cbv beta in Hr.
  destruct (ord2ymd (738900 + r)) as [[y m] dy] eqn:E.
  pose proof (order_date_spec r y m dy Hr E) as Hod.
  eapply returns_bind; [by apply returns_lift|]. intros ? ->.
  eapply returns_bind; [by apply returns_choice|]. intros st Hst.
  eapply returns_bind; [apply returns_getitem; dict_lookup; reflexivity|].
  intros ? ->.
  assert (Hcases : st = "Delivered" \/ st = "Pending").
  { unfold order_statuses in Hst.
    rewrite !elem_of_cons, elem_of_nil in Hst. tauto. }
  apply (returns_bind _ _ order_shape).
  - destruct Hcases as [-> | ->];
      cbn [py_eq_str String.eqb Ascii.eqb Bool.eqb].
    + eapply returns_bind; [apply returns_getitem; dict_lookup; reflexivity|].
      intros ? ->. cbn [as_datetime].
      eapply returns_bind; [apply returns_ret_eq|]. intros ? ->.
      eapply returns_bind; [apply returns_randint; lia|]. intros d Hd.
      eapply returns_bind; [apply returns_randint; lia|]. intros h Hh.
      cbv beta in Hd, Hh.
      destruct (delivery_date_spec (738900 + r) y m dy d h ltac:(lia) E Hd Hh)
        as (dd & Hadd & _).
      eapply returns_bind; [by apply returns_lift|]. intros ? ->.
      apply returns_ret. exists i, cid, r, y, m, dy.
      split; [exact Hr|]. split; [exact E|]. cbv zeta. right.
      exists d, h, dd. split; [exact Hd|]. split; [exact Hh|].
      split; [exact Hadd | reflexivity].
    + apply returns_ret. exists i, cid, r, y, m, dy.
      split; [exact Hr|]. split; [exact E|]. cbv zeta. left. reflexivity.
  - intros o Ho. apply returns_ret. apply Forall_app. split; [done|].
    by constructor.
Qed.

Lemma gen_order_items_shape (orders products : list dict) :
  products <> [] -> Forall product_keys products ->
  Forall order_keys orders ->
  returns (gen_order_items orders products)
    (fun st => Forall (fun it => exists o, o ∈ orders /\
                                           item_shape products o it) st.2).
Proof.
  intros Hne Hkeys Hokeys.
  apply (returns_for_each
           (fun _ st => Forall (fun it => exists o, o ∈ orders /\
                                  item_shape products o it) st.2));
    [constructor|].
  intros done order rest st Horders Hst. unfold order_items_body.
  eapply returns_bind; [apply returns_randint; lia|]. intros n _.
  assert (Hin : order ∈ orders).
  { rewrite Horders. apply elem_of_app. right. by left. }
  pose proof (proj1 (Forall_forall _ _) Hokeys order Hin) as [oid Eoid].
  apply (returns_for_each
           (fun _ st' => Forall (fun it => exists o, o ∈ orders /\
                                   item_shape products o it) st'.2));
    [exact Hst|].
  intros dn x rst [cnt items] _ Hst'. unfold item_body.
  eapply returns_bind; [by apply returns_choice|]. intros p Hp.
  eapply returns_bind; [apply returns_randint; lia|]. intros q _.
  cbv beta in Hp.
  destruct (proj1 (Forall_forall _ _) Hkeys p Hp)
    as [[price Eprice] [pid Epid]].
  eapply returns_bind; [by apply returns_getitem|]. intros ? ->.
  eapply returns_bind; [by apply returns_getitem|]. intros ? ->.
  eapply returns_bind; [by apply returns_getitem|]. intros ? ->.
  apply returns_ret. cbn [snd]. apply Forall_app. split; [exact Hst'|].
  constructor; [|constructor]. exists order. split; [exact Hin|].
  exists cnt, p, q, oid, pid, price.
  split; [exact Hp|]. split; [exact Eoid|]. split; [exact Epid|].
  split; [exact Eprice | reflexivity].
Qed.

Lemma dom_insert_keys (k : string) (v : pyval) (d : dict) (ks : list string) :
  dom d = keys ks -> dom (<[k := v]> d) = keys (k :: ks).
Proof. intros H. rewrite dom_insert_L, H. reflexivity. Qed.

Lemma dom_empty_keys : dom (∅ : dict) = keys [].
Proof. apply dom_empty_L. Qed.

(** Key set of a dictionary literal, keys listed from the last insertion
    to the first. *)
Ltac literal_keys :=
  repeat (apply dom_insert_keys); apply dom_empty_keys.

Lemma house_number_three_digits (house : Z) :
  111 <= house <= 894 -> String.length (str_of_int house) = 3%nat.
Proof.
  intros Hh.
  pose proof (forallb_seqZ
                (fun h => Nat.eqb (String.length (str_of_int h)) 3)
                111 784 ltac:(by vm_compute) house ltac:(lia)) as H.
  by apply Nat.eqb_eq in H.
Qed.

(** X1. Every customer record has exactly the keys customer_id, name,
    email and address. The address is a dictionary with exactly the keys
    street, city and state, all strings, and the street is a three-digit
    house number between 111 and 894, one space, and the street name. *)
Theorem X1_customer_record_and_address (w : World) :
  exists s w',
    generate w = Ok (s, w') /\
    Forall
      (fun c =>
         dom c = keys ["address"; "email"; "name"; "customer_id"] /\
         exists a house street city state,
           c !! "address" = Some (VDict a) /\
           dom a = keys ["state"; "city"; "street"] /\
           a !! "street" = Some (VStr (str_of_int house +:+ " " +:+ street)) /\
           a !! "city" = Some (VStr city) /\
           a !! "state" = Some (VStr state) /\
           111 <= house <= 894 /\
           String.length (str_of_int house) = 3%nat)
      (sample_customers_list s).
Proof.
  destruct (generate_total w) as (s & w' & E & _).
  exists s, w'. split; [exact E|].
  destruct (generate_steps _ _ _ E) as (w1 & _ & _ & Ec & _).
  pose proof (returns_elim _ _ _ _ _ gen_customers_shape Ec) as Hshape.
  eapply Forall_impl; [exact Hshape|].
  intros c (i & name & domain & house & street & city & state
            & Hhouse & _ & ->).
  split; [literal_keys|].
  exists (address_of house street city state), house, street, city, state.
  unfold address_of. dict_lookup.
  split_and!;
    [ reflexivity | literal_keys | reflexivity | reflexivity | reflexivity
    | lia | lia | by apply house_number_three_digits ].
Qed.

(** X2. Every product record has exactly the keys product_id,
    product_name, category, price and stock_quantity; the two names are
    strings and the three numbers are integers. *)
Theorem X2_product_record_keys (w : World) :
  exists s w',
    generate w = Ok (s, w') /\
    Forall
      (fun p =>
         dom p = keys ["stock_quantity"; "price"; "category";
                       "product_name"; "product_id"] /\
         exists i name cat price stock,
           p !! "product_id" = Some (VInt i) /\
           p !! "product_name" = Some (VStr name) /\
           p !! "category" = Some (VStr cat) /\
           p !! "price" = Some (VInt price) /\
           p !! "stock_quantity" = Some (VInt stock))
      (sample_products_list s).
Proof.
  destruct (generate_total w) as (s & w' & E & _).
  exists s, w'. split; [exact E|].
  destruct (generate_steps _ _ _ E) as (w1 & w2 & _ & _ & Ep & _).
  pose proof (returns_elim _ _ _ _ _ gen_products_shape Ep) as Hshape.
  eapply Forall_impl; [exact Hshape|].
  intros p (i & name & cat & price & stock & ->).
  split; [literal_keys|].
  exists i, name, cat, price, stock. dict_lookup.
  split_and!; reflexivity.
Qed.

(** X3. A pending order has exactly the keys order_id, customer_id,
    order_date and status; a delivered order has those four and
    delivery_date, and nothing else. *)
Theorem X3_order_record_keys (w : World) :
  exists s w',
    generate w = Ok (s, w') /\
    Forall
      (fun o =>
         (o !! "status" = Some (VStr "Pending") /\
          dom o = keys ["status"; "order_date"; "customer_id"; "order_id"])
         \/
         (o !! "status" = Some (VStr "Delivered") /\
          dom o = keys ["delivery_date"; "status"; "order_date";
                        "customer_id"; "order_id"]))
      (sample_orders_list s).
Proof.
  destruct (generate_total w) as (s & w' & E & _).
  exists s, w'. split; [exact E|].
  destruct (generate_steps _ _ _ E) as (w1 & w2 & w3 & _ & _ & Eo & _).
  pose proof (returns_elim _ _ _ _ _ gen_orders_shape Eo) as Hshape.
  eapply Forall_impl; [exact Hshape|].
  intros o (i & cid & r & y & m & dy & _ & _ & Ho). cbv zeta in Ho.
  destruct Ho as [-> | (d & h & dd & _ & _ & _ & ->)]; unfold order_base.
  - left. dict_lookup. split; [reflexivity | literal_keys].
  - right. dict_lookup. split; [reflexivity | literal_keys].
Qed.

(** X4. Every order item has exactly the keys order_item_id, order_id,
    product_id, quantity and price, and all five values are integers. *)
Theorem X4_order_item_record_keys (w : World) :
  exists s w',
    generate w = Ok (s, w') /\
    Forall
      (fun it =>
         dom it = keys ["price"; "quantity"; "product_id"; "order_id";
                        "order_item_id"] /\
         exists id oid pid q price,
           it !! "order_item_id" = Some (VInt id) /\
           it !! "order_id" = Some (VInt oid) /\
           it !! "product_id" = Some (VInt pid) /\
           it !! "quantity" = Some (VInt q) /\
           it !! "price" = Some (VInt price))
      (sample_order_items_list s).
Proof.
  destruct (generate_total w) as (s & w' & E & _ & Hp & Ho & _).
  exists s, w'. split; [exact E|].
  destruct (generate_steps _ _ _ E) as (w1 & w2 & w3 & _ & _ & _ & Ei).
  assert (Hshape : Forall (fun it => exists o, o ∈ sample_orders_list s /\
                      item_shape (sample_products_list s) o it)
                     (sample_order_items_list s)).
  { refine (returns_elim _ _ _ _ _
              (gen_order_items_shape _ _ _ _ _) Ei).
    - apply Forall2_range_length in Hp.
      by destruct (sample_products_list s).
    - eapply Forall2_right; [|exact Hp].
      intros i p (Eid & _ & _ & (price & Eprice & _) & _).
      split; by eexists.
    - eapply Forall2_right; [|exact Ho].
      intros i o (Eid & _). by eexists. }
  eapply Forall_impl; [exact Hshape|].
  intros it (o & Hin & id & p & q & oid & pid & price
             & Hpin & Eoid & Epid & Eprice & ->).
  split; [literal_keys|].
  apply list_elem_of_lookup_1 in Hin as [n Hn].
  pose proof (Forall2_range_lookup _ _ _ _ Ho n o Hn) as [Hoid _].
  apply list_elem_of_lookup_1 in Hpin as [k Hk].
  pose proof (Forall2_range_lookup _ _ _ _ Hp k p Hk)
    as (Hpid & _ & _ & (pr & Hpr & _) & _).
  exists id, (5001 + Z.of_nat n), (101 + Z.of_nat k), q, pr.
  dict_lookup. split_and!; congruence.
Qed.

(** ** Orders refer to customers *)

(** X5. The customer_id of every order is the identifier of a customer of
    the customer list: looking it up by identifier finds that customer. *)
Theorem X5_order_customer_exists (w : World) :
  exists s w',
    generate w = Ok (s, w') /\
    Forall
      (fun o =>
         exists cid c,
           int_at "customer_id" o = Some cid /\
           by_id "customer_id" cid (sample_customers_list s) = Some c /\
           int_at "customer_id" c = Some cid)
      (sample_orders_list s).
Proof.
  destruct (generate_total w) as (s & w' & E & Hc & _ & Ho & _).
  exists s, w'. split; [exact E|].
  assert (Hcol : column "customer_id" (sample_customers_list s)
                 = map Some (range 1 25)).
  { apply column_ids. eapply Forall2_impl; [exact Hc|]. by intros ?? [? _]. }
  pose proof (Forall2_range_length _ _ _ _ Hc) as Hlen.
  eapply Forall2_right; [|exact Ho].
  intros i o (_ & cid & r & od & st & Hcid & Hrange & _).
  destruct (lookup_lt_is_Some_2 (sample_customers_list s)
              (Z.to_nat (cid - 1))) as [c Hcn]; [rewrite Hlen; lia|].
  assert (Hid : range 1 25 !! Z.to_nat (cid - 1) = Some cid).
  { unfold range. apply lookup_seqZ. lia. }
  exists cid, c. split_and!.
  - by apply int_at_Some.
  - exact (by_id_lookup _ _ _ _ _ _ Hcol (NoDup_seqZ _ _) Hcn Hid).
  - exact (column_lookup _ _ _ _ _ _ Hcol Hcn Hid).
Qed.

(** ** The dates of an order *)

Lemma order_date_window (r y m d : Z) :
  0 <= r <= 730 -> ord2ymd (738900 + r) = (y, m, d) ->
  leb base_date (mkDatetime y m d 10 0 0 0) = true /\
  leb (mkDatetime y m d 10 0 0 0) last_order_date = true.
Proof.
  intros Hr E.
  pose proof (forallb_seqZ order_date_ok 738900 731 ltac:(by vm_compute)
                (738900 + r) ltac:(lia)) as H.
  unfold order_date_ok in H. rewrite E in H. by apply andb_prop in H.
Qed.

(** X6. Every order date is at 10:00:00 sharp, on a day from 2024-01-15
    to 2026-01-14 inclusive. *)
Theorem X6_order_date_window (w : World) :
  exists s w',
    generate w = Ok (s, w') /\
    Forall
      (fun o =>
         exists od,
           o !! "order_date" = Some (VDatetime od) /\
           hour od = 10 /\ minute od = 0 /\ second od = 0 /\
           microsecond od = 0 /\
           leb (mkDatetime 2024 1 15 10 0 0 0) od = true /\
           leb od (mkDatetime 2026 1 14 10 0 0 0) = true)
      (sample_orders_list s).
Proof.
  destruct (generate_total w) as (s & w' & E & _).
  exists s, w'. split; [exact E|].
  destruct (generate_steps _ _ _ E) as (w1 & w2 & w3 & _ & _ & Eo & _).
  pose proof (returns_elim _ _ _ _ _ gen_orders_shape Eo) as Hshape.
  eapply Forall_impl; [exact Hshape|].
  intros o (i & cid & r & y & m & dy & Hr & Eymd & Ho). cbv zeta in Ho.
  destruct (order_date_window r y m dy Hr Eymd) as [Hlo Hhi].
  exists (mkDatetime y m dy 10 0 0 0).
  destruct Ho as [-> | (d & h & dd & _ & _ & _ & ->)]; unfold order_base;
    dict_lookup; by split_and!.
Qed.

Lemma at_most_eight_days (d h : Z) :
  d <= 7 -> 0 <= h <= 24 ->
  td_leb (timedelta_of d h) (timedelta_of 8 0) = true.
Proof.
  intros Hd Hh. unfold td_leb, td_fields, timedelta_of.
  cbn [td_days td_seconds td_microseconds lex_compare].
  change (8 + 0 * 3600 / 86400) with 8.
  change (0 * 3600 mod 86400) with 0.
  destruct (Z.compare_spec (d + h * 3600 / 86400) 8) as [E|E|E].
  - destruct (Z.compare_spec (h * 3600 mod 86400) 0) as [E'|E'|E'];
      [done | done | exfalso; dlia].
  - done.
  - exfalso. dlia.
Qed.

(** The delivery date falls on a full hour. *)
Lemma delivery_on_the_hour (n y m dy d h : Z) (dd : datetime) :
  738900 <= n <= 739630 ->
  ord2ymd n = (y, m, dy) ->
  0 <= d <= 7 -> 2 <= h <= 24 ->
  add (mkDatetime y m dy 10 0 0 0) (timedelta_of d h) = Ok dd ->
  minute dd = 0 /\ second dd = 0 /\ microsecond dd = 0.
Proof.
  intros Hn E Hd Hh Hadd.
  set (od := mkDatetime y m dy 10 0 0 0) in *.
  assert (Hord : toordinal od = n) by (apply roundtrip_window; [lia | done]).
  set (total := 36000 + (h * 3600) mod 86400).
  set (n' := n + (d + h * 3600 / 86400) + total / 86400).
  set (s := total mod 86400).
  assert (Hk : 0 <= n' - n <= 8) by (subst n' total; dlia).
  assert (Hmin : s mod 3600 / 60 = 0 /\ s mod 3600 mod 60 = 0)
    by (subst s total; dlia).
  destruct (ord2ymd n') as [[y' m'] d'] eqn:E'.
  assert (Hadd' : add od (timedelta_of d h) =
    Ok (mkDatetime y' m' d' (s / 3600) (s mod 3600 / 60)
                   (s mod 3600 mod 60) 0)).
  { apply (add_whole_seconds od (timedelta_of d h) n' s); try done.
    - rewrite Hord. unfold od. rewrite seconds_of_day_at.
      change (10 * 3600) with 36000.
      unfold timedelta_of. cbn [td_days td_seconds]. subst n' total. lia.
    - unfold MAXORDINAL. lia. }
  rewrite Hadd' in Hadd. injection Hadd as <-.
  cbn [minute second microsecond]. by destruct Hmin.
Qed.

(** X7. A delivery date that is present is on a full hour and at most
    eight days after the order date. *)
Theorem X7_delivery_within_eight_days (w : World) :
  exists s w',
    generate w = Ok (s, w') /\
    Forall
      (fun o =>
         o !! "delivery_date" = None \/
         exists od dd,
           o !! "order_date" = Some (VDatetime od) /\
           o !! "delivery_date" = Some (VDatetime dd) /\
           minute dd = 0 /\ second dd = 0 /\ microsecond dd = 0 /\
           td_leb (sub dd od) (mkTimedelta 8 0 0) = true)
      (sample_orders_list s).
Proof.
  destruct (generate_total w) as (s & w' & E & _).
  exists s, w'. split; [exact E|].
  destruct (generate_steps _ _ _ E) as (w1 & w2 & w3 & _ & _ & Eo & _).
  pose proof (returns_elim _ _ _ _ _ gen_orders_shape Eo) as Hshape.
  eapply Forall_impl; [exact Hshape|].
  intros o (i & cid & r & y & m & dy & Hr & Eymd & Ho). cbv zeta in Ho.
  destruct Ho as [-> | (d & h & dd & Hd & Hh & Hadd & ->)]; unfold order_base;
    dict_lookup; [by left | right].
  exists (mkDatetime y m dy 10 0 0 0), dd.
  destruct (delivery_on_the_hour (738900 + r) y m dy d h dd ltac:(lia)
              Eymd Hd Hh Hadd)
    as (Hmi & Hse & Hus).
  destruct (delivery_date_spec (738900 + r) y m dy d h ltac:(lia) Eymd Hd Hh)
    as (dd' & Hadd' & _ & Hsub).
  assert (dd' = dd) as -> by congruence.
  split_and!; try done.
  rewrite Hsub. apply (at_most_eight_days d h); lia.
Qed.

(** ** The e-mail address *)

Lemma chars_append (a b : string) :
  list_ascii_of_string (a +:+ b)
  = list_ascii_of_string a ++ list_ascii_of_string b.
Proof. induction a as [|c a IH]; [done|]. simpl. by rewrite IH. Qed.

Lemma email_char_spec (ch : ascii) :
  email_char ch = true <-> ch <> " "%char /\ lower_ascii ch = ch.
Proof.
  unfold email_char. rewrite andb_true_iff, negb_true_iff.
  rewrite Ascii.eqb_eq, Ascii.eqb_neq. done.
Qed.

Lemma email_char_lower (ch : ascii) :
  ch <> " "%char -> email_char (lower_ascii ch) = true.
Proof.
  intros Hne. apply Ascii.eqb_neq in Hne. revert Hne.
  by destruct ch as [[] [] [] [] [] [] [] []].
Qed.

(** X8. Every e-mail address is free of spaces and of upper-case ASCII
    letters, and contains the separator "@". *)
Theorem X8_email_lowercase_without_spaces (w : World) :
  exists s w',
    generate w = Ok (s, w') /\
    Forall
      (fun c =>
         exists email,
           c !! "email" = Some (VStr email) /\
           Forall (fun ch => ch <> " "%char /\ lower_ascii ch = ch)
                  (list_ascii_of_string email) /\
           "@"%char ∈ list_ascii_of_string email)
      (sample_customers_list s).
Proof.
  destruct (generate_total w) as (s & w' & E & Hc & _).
  exists s, w'. split; [exact E|].
  eapply Forall2_right; [|exact Hc].
  intros i c (_ & name & domain & _ & Hdom & Hemail).
  eexists. split; [exact Hemail|].
  rewrite !chars_append, str_lower_chars, str_replace_space_chars.
  split.
  - apply Forall_app. split.
    + apply Forall_forall. intros ch Hch.
      apply list_elem_of_fmap in Hch as (ch0 & -> & Hch0).
      apply list_elem_of_In, List.filter_In in Hch0 as [_ Hne].
      apply email_char_spec, email_char_lower.
      apply negb_true_iff, Ascii.eqb_neq in Hne. exact Hne.
    + assert (Hall : forallb email_char
                (list_ascii_of_string "@" ++ list_ascii_of_string domain)
                = true).
      { unfold email_domains in Hdom.
        rewrite !elem_of_cons, elem_of_nil in Hdom.
        destruct Hdom as [-> | [-> | [-> | []]]]; by vm_compute. }
      apply Forall_forall. intros ch Hch. apply email_char_spec.
      rewrite forallb_forall in Hall. apply Hall.
      by apply list_elem_of_In.
  - apply elem_of_app. right. apply elem_of_app. left. by left.
Qed.

(** ** What a dump writes *)

Lemma result_bind_Ok {A B} (r : result A) (k : A -> result B) (b : B) :
  result_bind r k = Ok b -> exists a, r = Ok a /\ k a = Ok b.
Proof. destruct r as [a|e]; [by exists a | discriminate]. Qed.

(** The object written for a dictionary has the dictionary's keys, each
    with the encoding of its value. *)
Lemma json_encode_dict_fields (f : pyval -> result string) (m : dict)
    (j : json) :
  json_encode f (VDict m) = Ok j ->
  exists js,
    j = JObj js /\
    forall k,
      match m !! k with
      | Some v => exists jv, json_encode f v = Ok jv /\ js !! k = Some jv
      | None => js !! k = None
      end.
Proof.
  cbn [json_encode]. intros H.
  apply result_bind_Ok in H as (js & Hfold & [= <-]).
  exists js. split; [reflexivity|]. revert js Hfold.
  match goal with
  | |- forall js, map_fold ?g ?b m = Ok js -> _ =>
      apply (map_fold_weak_ind
               (fun r m' =>
                  forall js, r = Ok js ->
                  forall k,
                    match m' !! k with
                    | Some v => exists jv, json_encode f v = Ok jv /\
                                           js !! k = Some jv
                    | None => js !! k = None
                    end) g b)
  end.
  - intros js [= <-] k. by rewrite !lookup_empty.
  - intros i x m' r Hi IH js Hstep k.
    apply result_bind_Ok in Hstep as (js0 & -> & Hstep).
    apply result_bind_Ok in Hstep as (jx & Hx & [= <-]).
    specialize (IH js0 eq_refl k).
    destruct (decide (i = k)) as [-> | Hne].
    + rewrite !lookup_insert_eq. by exists jx.
    + by rewrite !lookup_insert_ne.
Qed.

Lemma json_encode_dict_dom (f : pyval -> result string) (m : dict)
    (js : gmap string json) :
  json_encode f (VDict m) = Ok (JObj js) -> dom js = dom m.
Proof.
  intros H. apply json_encode_dict_fields in H as (js' & [= <-] & Hk).
  apply set_eq. intros k. rewrite !elem_of_dom. specialize (Hk k).
  destruct (m !! k) as [v|].
  - destruct Hk as (jv & _ & ->). split; by eexists.
  - rewrite Hk. split; intros [? [=]].
Qed.

Lemma json_dump_records (l : list dict) (j : json) :
  json_dump l = Ok j ->
  exists js,
    j = JArr js /\
    Forall2 (fun d jd => json_encode custom_serializer (VDict d) = Ok jd)
            l js.
Proof.
  unfold json_dump. cbn [json_encode]. intros H.
  apply result_bind_Ok in H as (js & Hfold & [= <-]).
  exists js. split; [reflexivity|]. revert js Hfold.
  induction l as [|d l IH]; intros js Hfold.
  - injection Hfold as <-. constructor.
  - rewrite fmap_cons in Hfold. cbn [foldr] in Hfold.
    apply result_bind_Ok in Hfold as (jd & Hd & Hfold).
    apply result_bind_Ok in Hfold as (js' & Hrest & [= <-]).
    constructor; [exact Hd | by apply IH].
Qed.

(** X9. A dump that succeeds writes a JSON array with one object per
    record, in the order of the list, and each object has exactly the keys
    of its record. *)
Theorem X9_dump_keeps_records_and_keys (l : list dict) (j : json) :
  json_dump l = Ok j ->
  exists js,
    j = JArr js /\
    length js = length l /\
    Forall2 (fun d jd => exists m, jd = JObj m /\ dom m = dom d) l js.
Proof.
  intros H. apply json_dump_records in H as (js & -> & Hrec).
  exists js. split; [reflexivity|]. split.
  - symmetry. by eapply Forall2_length.
  - eapply Forall2_impl; [exact Hrec|].
    intros d jd Hd. pose proof Hd as Hd'.
    apply json_encode_dict_fields in Hd' as (m & -> & _).
    exists m. split; [reflexivity|]. by eapply json_encode_dict_dom.
Qed.

Lemma X9_dump_keeps_records_and_keys_witness :
  exists js,
    JArr [JObj (<["id" := JInt 7]> ∅)] = JArr js /\
    length js = length [ (<["id" := VInt 7]> ∅ : dict) ] /\
    Forall2 (fun d jd => exists m, jd = JObj m /\ dom m = dom d)
            [ (<["id" := VInt 7]> ∅ : dict) ] js.
Proof.
  apply (X9_dump_keeps_records_and_keys
           [ <["id" := VInt 7]> ∅ ] (JArr [JObj (<["id" := JInt 7]> ∅)])).
  vm_compute. reflexivity.
Defined.


Lemma Forall2_with_left {A B} (P : A -> Prop) (Q : A -> B -> Prop)
    (l : list A) (k : list B) :
  Forall P l -> Forall2 Q l k -> Forall2 (fun x y => P x /\ Q x y) l k.
Proof.
  intros HP HQ. induction HQ as [|x y l k Hxy _ IH]; [constructor|].
  apply Forall_cons in HP as [Hx HP]. constructor; [done | by apply IH].
Qed.

(** X11. In the orders file every object carries its order date as the
    ISO-8601 text of the datetime; the object of a pending order has no
    delivery_date member at all, and the object of a delivered order has
    one, again the ISO-8601 text of the datetime. *)
Theorem X11_dumped_orders_dates (w : World) :
  exists s w' js,
    generate w = Ok (s, w') /\
    json_dump (sample_orders_list s) = Ok (JArr js) /\
    Forall2
      (fun o jd =>
         exists m od,
           jd = JObj m /\
           o !! "order_date" = Some (VDatetime od) /\
           m !! "order_date" = Some (JStr (isoformat od)) /\
           ((o !! "status" = Some (VStr "Pending") /\
             m !! "status" = Some (JStr "Pending") /\
             m !! "delivery_date" = None)
            \/
            (exists dd,
               o !! "status" = Some (VStr "Delivered") /\
               m !! "status" = Some (JStr "Delivered") /\
               o !! "delivery_date" = Some (VDatetime dd) /\
               m !! "delivery_date" = Some (JStr (isoformat dd)))))
      (sample_orders_list s) js.
Proof.
  destruct (generate_total w) as (s & w' & E & _).
  destruct (generate_plain w) as (s' & w2 & E' & _ & Hpo & _).
  assert (s' = s) as -> by congruence.
  destruct (json_dump_plain _ Hpo) as [do Edo].
  destruct (json_dump_records _ _ Edo) as (js & -> & Hjs).
  exists s, w', js. split; [exact E|]. split; [exact Edo|].
  destruct (generate_steps _ _ _ E) as (w1 & w3 & w4 & _ & _ & Eo & _).
  pose proof (returns_elim _ _ _ _ _ gen_orders_shape Eo) as Hshape.
  eapply Forall2_impl; [exact (Forall2_with_left _ _ _ _ Hshape Hjs)|].
  intros o jd [(i & cid & r & y & m & dy & _ & _ & Ho) Hjd].
  cbv zeta in Ho.
  apply json_encode_dict_fields in Hjd as (mj & -> & Hk).
  exists mj, (mkDatetime y m dy 10 0 0 0). split; [reflexivity|].
  pose proof (Hk "order_date") as Hdate.
  pose proof (Hk "status") as Hstatus.
  pose proof (Hk "delivery_date") as Hdel.
  destruct Ho as [-> | (d & h & dd & _ & _ & _ & ->)]; unfold order_base in *;
    revert Hdate Hstatus Hdel; dict_lookup;
    intros (jv1 & [= <-] & Hm1) (jv2 & [= <-] & Hm2) Hdel.
  - split; [reflexivity|]. split; [exact Hm1|]. left. by split_and!.
  - destruct Hdel as (jv3 & [= <-] & Hm3).
    split; [reflexivity|]. split; [exact Hm1|]. right. exists dd.
    by split_and!.
Qed.

(** ** When a dump raises *)

Lemma pyval_size_list (x : pyval) (l : list pyval) :
  x ∈ l -> (pyval_size x < pyval_size (VList l))%nat.
Proof.
  intros Hx. cbn [pyval_size]. apply Nat.lt_succ_r.
  induction Hx as [x l | x y l _ IH]; cbn [foldr]; lia.
Qed.

Lemma pyval_size_dict (m : dict) (k : string) (x : pyval) :
  m !! k = Some x -> (pyval_size x < pyval_size (VDict m))%nat.
Proof.
  cbn [pyval_size]. intros Hk. apply Nat.lt_succ_r. revert k x Hk.
  match goal with
  | |- forall k x, _ -> (_ <= map_fold ?g ?b m)%nat =>
      apply (map_fold_weak_ind
               (fun r m' => forall k x, m' !! k = Some x ->
                                        (pyval_size x <= r)%nat) g b)
  end.
  - intros k x Hk. by rewrite lookup_empty in Hk.
  - intros i y m' r Hi IH k x Hk.
    apply lookup_insert_Some in Hk as [[_ <-] | [_ Hk]]; [lia|].
    specialize (IH k x Hk). lia.
Qed.

Lemma result_bind_Raise {A B} (r : result A) (k : A -> result B) (e : exn) :
  result_bind r k = Raise e ->
  r = Raise e \/ exists a, r = Ok a /\ k a = Raise e.
Proof.
  intros H. destruct r as [a|e']; simpl in H;
    [right; by exists a | left; congruence].
Qed.

(** An exception of the encoding of a list is the exception of the
    encoding of one of its elements; likewise for a dictionary. *)
Lemma encode_list_raise (f : pyval -> result string) (l : list pyval)
    (e : exn) :
  json_encode f (VList l) = Raise e ->
  exists x, x ∈ l /\ json_encode f x = Raise e.
Proof.
  cbn [json_encode]. intros H.
  apply result_bind_Raise in H as [H | (js & _ & [=])].
  induction l as [|x l IH]; [discriminate|]. cbn [foldr] in H.
  apply result_bind_Raise in H as [H | (j & _ & H)].
  - exists x. split; [by left | exact H].
  - apply result_bind_Raise in H as [H | (js & _ & [=])].
    destruct (IH H) as (y & Hy & Hey). exists y. split; [by right | exact Hey].
Qed.

Lemma encode_dict_raise (f : pyval -> result string) (m : dict) (e : exn) :
  json_encode f (VDict m) = Raise e ->
  exists k x, m !! k = Some x /\ json_encode f x = Raise e.
Proof.
  cbn [json_encode]. intros H.
  apply result_bind_Raise in H as [H | (js & _ & [=])]. revert H.
  match goal with
  | |- map_fold ?g ?b m = Raise e -> _ =>
      apply (map_fold_weak_ind
               (fun r m' => r = Raise e ->
                            exists k x, m' !! k = Some x /\
                                        json_encode f x = Raise e) g b)
  end.
  - discriminate.
  - intros i y m' r Hi IH H.
    apply result_bind_Raise in H as [H | (js & _ & H)].
    + destruct (IH H) as (k & x & Hk & Hx). exists k, x.
      split; [|exact Hx]. rewrite lookup_insert_ne; [exact Hk|].
      intros ->. congruence.
    + apply result_bind_Raise in H as [H | (j & _ & [=])].
      exists i, y. split; [apply lookup_insert_eq | exact H].
Qed.

(** The only exception the encoding with [custom_serializer] raises. *)
Lemma encode_raises_type_error (v : pyval) (e : exn) :
  json_encode custom_serializer v = Raise e ->
  e = TypeError "Type not serializable".
Proof.
  remember (pyval_size v) as n eqn:Hn. revert v Hn e.
  induction n as [n IH] using lt_wf_ind. intros v -> e H.
  destruct v as [| b | z | s | d | l | m | t]; try discriminate.
  - apply encode_list_raise in H as (x & Hx & He).
    by eapply (IH _ (pyval_size_list x l Hx) x).
  - apply encode_dict_raise in H as (k & x & Hk & He).
    by eapply (IH _ (pyval_size_dict m k x Hk) x).
  - cbn in H. congruence.
Qed.

Lemma encode_dict_raises_if_value_does (f : pyval -> result string)
    (m : dict) (k : string) (x : pyval) (e : exn) :
  m !! k = Some x -> json_encode f x = Raise e ->
  exists e', json_encode f (VDict m) = Raise e'.
Proof.
  intros Hk Hx.
  destruct (json_encode f (VDict m)) as [j|e'] eqn:E; [|by exists e'].
  apply json_encode_dict_fields in E as (js & _ & Hall).
  specialize (Hall k). rewrite Hk in Hall.
  destruct Hall as (jv & Hjv & _). congruence.
Qed.

Lemma json_dump_raises_if_record_does (l : list dict) (d : dict) (e : exn) :
  d ∈ l -> json_encode custom_serializer (VDict d) = Raise e ->
  exists e', json_dump l = Raise e'.
Proof.
  intros Hd He.
  destruct (json_dump l) as [j|e'] eqn:E; [|by exists e'].
  apply json_dump_records in E as (js & _ & Hall).
  apply list_elem_of_lookup_1 in Hd as [n Hn].
  destruct (Forall2_lookup_l _ _ _ _ _ Hall Hn) as (jd & _ & Hjd).
  congruence.
Qed.

(** X12. If any record of a list holds, under any key, a value that is
    neither a JSON-native value nor a datetime, the dump of that list
    raises TypeError("Type not serializable") and writes no document. *)
Theorem X12_dump_raises_type_error (l : list dict) (d : dict)
    (k type_name : string) :
  d ∈ l ->
  d !! k = Some (VOther type_name) ->
  json_dump l = Raise (TypeError "Type not serializable").
Proof.
  intros Hd Hk.
  destruct (encode_dict_raises_if_value_does custom_serializer d k
              (VOther type_name) (TypeError "Type not serializable") Hk
              eq_refl) as [e1 He1].
  destruct (json_dump_raises_if_record_does l d e1 Hd He1) as [e2 He2].
  rewrite He2. f_equal. by eapply encode_raises_type_error.
Qed.

Lemma X12_dump_raises_type_error_witness :
  json_dump [ (<["id" := VInt 1]> ∅ : dict);
              <["when" := VOther "date"]> (<["id" := VInt 2]> ∅) ]
  = Raise (TypeError "Type not serializable").
Proof.
  apply (X12_dump_raises_type_error _
           (<["when" := VOther "date"]> (<["id" := VInt 2]> ∅))
           "when" "date").
  - apply elem_of_cons. right. apply elem_of_cons. left. reflexivity.
  - apply lookup_insert_eq.
Defined.

(** ** The order-item loops on any order list and product list *)

Lemma blocks_length_bounds (products orders : list dict)
    (blocks : list (list dict)) :
  Forall2 (block_ok products) orders blocks ->
  (length orders <= length (concat blocks) <= 5 * length orders)%nat.
Proof.
  induction 1 as [|o b orders blocks [Hb _] _ IH]; [simpl; lia|].
  simpl. rewrite length_app. lia.
Qed.

(** X13. Given any list of orders that each have an order_id and any
    non-empty list of products that each have a price and a product_id,
    the item loops finish without raising; the items are numbered 9001,
    9002, ... in list order, the counter ends one past the last number, and
    there are at least as many items as orders and at most five times as
    many. *)
Theorem X13_item_loops_contract (orders products : list dict) (w : World) :
  products <> [] ->
  Forall product_keys products ->
  Forall order_keys orders ->
  exists cnt items w',
    gen_order_items orders products w = Ok ((cnt, items), w') /\
    cnt = 9001 + Z.of_nat (length items) /\
    column "order_item_id" items
      = map Some (seqZ 9001 (Z.of_nat (length items))) /\
    (length orders <= length items <= 5 * length orders)%nat.
Proof.
  intros Hne Hkeys Hokeys.
  destruct (gen_order_items_spec products Hne Hkeys orders Hokeys w)
    as ([cnt items] & w' & E & Hcnt & Hids & blocks & Hitems & Hblocks).
  simpl in Hcnt, Hids, Hitems.
  exists cnt, items, w'. split; [exact E|]. split; [exact Hcnt|]. split.
  - by apply ids_from_column.
  - rewrite Hitems. by eapply blocks_length_bounds.
Qed.

Lemma X13_item_loops_contract_witness :
  exists cnt items w',
    gen_order_items
      [ (<["order_id" := VInt 1]> ∅ : dict) ]
      [ (<["product_id" := VInt 7]> (<["price" := VInt 10]> ∅) : dict) ]
      world_count
    = Ok ((cnt, items), w') /\
    cnt = 9001 + Z.of_nat (length items) /\
    column "order_item_id" items
      = map Some (seqZ 9001 (Z.of_nat (length items))) /\
    (length [ (<["order_id" := VInt 1]> ∅ : dict) ] <= length items
     <= 5 * length [ (<["order_id" := VInt 1]> ∅ : dict) ])%nat.
Proof.
  apply (X13_item_loops_contract
           [ <["order_id" := VInt 1]> ∅ ]
           [ <["product_id" := VInt 7]> (<["price" := VInt 10]> ∅) ]
           world_count).
  - discriminate.
  - constructor; [|constructor]. split.
    + exists (VInt 10). reflexivity.
    + exists (VInt 7). reflexivity.
  - constructor; [|constructor]. exists (VInt 1). reflexivity.
Defined.

Lemma range_from_zero_cons (n : Z) :
  1 <= n -> range 0 n = 0 :: seqZ 1 (n - 1).
Proof.
  intros Hn. unfold range. rewrite seqZ_cons by lia.
  f_equal. f_equal. lia.
Qed.

(** The first pass of the outer loop: the item count is drawn, then the
    first item is attempted. *)
Lemma first_item_attempt (products orders : list dict) (order : dict)
    (w : World) :
  exists n w1,
    1 <= n <= 5 /\
    gen_order_items (order :: orders) products w =
      bind (bind (item_body products order 0 (9001, []))
                 (for_each (seqZ 1 (n - 1)) (item_body products order)))
           (for_each orders (order_items_body products)) w1.
Proof.
  unfold gen_order_items. cbn [for_each]. unfold order_items_body at 1.
  destruct (returns_randint 1 5 ltac:(lia) w) as (n & w1 & En & Hn).
  exists n, w1. split; [exact Hn|].
  unfold bind at 1. unfold bind at 1. rewrite En.
  rewrite range_from_zero_cons by lia. reflexivity.
Qed.

(** X14. With at least one order and an empty product list, the item
    loops raise IndexError at the first item: [random.choice] has nothing
    to choose from. *)
Theorem X14_no_products_raises_index_error (order : dict)
    (orders : list dict) (w : World) :
  gen_order_items (order :: orders) [] w
  = Raise (IndexError "Cannot choose from an empty sequence").
Proof.
  destruct (first_item_attempt [] orders order w) as (n & w1 & _ & ->).
  reflexivity.
Qed.

(** X15. With at least one order and a non-empty product list in which no
    product has a price, the item loops raise KeyError("price") at the
    first item. *)
Theorem X15_product_without_price_raises_key_error (order : dict)
    (orders products : list dict) (w : World) :
  products <> [] ->
  Forall (fun p => p !! "price" = None) products ->
  gen_order_items (order :: orders) products w = Raise (KeyError "price").
Proof.
  intros Hne Hnone.
  destruct (first_item_attempt products orders order w) as (n & w1 & _ & ->).
  unfold item_body.
  destruct (returns_choice products Hne w1) as (p & w2 & Ep & Hp).
  destruct (returns_randint 1 3 ltac:(lia) w2) as (q & w3 & Eq & _).
  pose proof (proj1 (Forall_forall _ _) Hnone p Hp) as Hprice.
  unfold bind, getitem. rewrite Ep, Eq, Hprice. reflexivity.
Qed.

Lemma X15_product_without_price_raises_key_error_witness :
  gen_order_items
    [ (<["order_id" := VInt 1]> ∅ : dict) ]
    [ (<["product_id" := VInt 7]> ∅ : dict) ]
    world_count
  = Raise (KeyError "price").
Proof.
  apply (X15_product_without_price_raises_key_error
           (<["order_id" := VInt 1]> ∅) []
           [ <["product_id" := VInt 7]> ∅ ] world_count).
  - discriminate.
  - constructor; [reflexivity | constructor].
Defined.

Lemma item_body_step (products : list dict) (order : dict) (x : Z)
    (st : Z * list dict) :
  products <> [] -> Forall product_keys products -> order_keys order ->
  returns (item_body products order x st)
          (fun st' => st'.1 = st.1 + 1 /\ exists it, st'.2 = st.2 ++ [it]).
Proof.
  intros Hne Hkeys [oid Eoid]. destruct st as [cnt items]. unfold item_body.
  eapply returns_bind; [by apply returns_choice|]. intros p Hp.
  eapply returns_bind; [apply returns_randint; lia|]. intros q _.
  cbv beta in Hp.
  destruct (proj1 (Forall_forall _ _) Hkeys p Hp)
    as [[price Eprice] [pid Epid]].
  eapply returns_bind; [by apply returns_getitem|]. intros ? ->.
  eapply returns_bind; [by apply returns_getitem|]. intros ? ->.
  eapply returns_bind; [by apply returns_getitem|]. intros ? ->.
  apply returns_ret. cbn [fst snd]. split; [reflexivity|]. by eexists.
Qed.

(** X16. One pass of the outer loop reads the next raw draw r, appends
    exactly 1 + r mod 5 items after the items already there, and advances
    the counter by the same number. *)
Theorem X16_one_order_appends_drawn_count (products : list dict)
    (order : dict) (st : Z * list dict) (w : World) :
  products <> [] -> Forall product_keys products -> order_keys order ->
  exists st' w' block,
    order_items_body products order st w = Ok (st', w') /\
    st'.2 = st.2 ++ block /\
    Z.of_nat (length block) = 1 + rand_tape w (rand_pos w) mod 5 /\
    st'.1 = st.1 + Z.of_nat (length block).
Proof.
  intros Hne Hkeys Hkey. unfold order_items_body, randint.
  change (0 <? 5 + 1 - 1) with true. cbv iota.
  unfold bind at 1. unfold bind at 1. unfold randbelow at 1, ret at 1.
  change (5 + 1 - 1) with 5.
  pose proof (Z.mod_pos_bound (rand_tape w (rand_pos w)) 5 ltac:(lia)) as Hr.
  set (n := 1 + rand_tape w (rand_pos w) mod 5) in *.
  set (w1 := mkWorld _ _ _ _).
  assert (Hloop : returns
            (for_each (range 0 n) (item_body products order) st)
            (fun st' => exists block,
               st'.2 = st.2 ++ block /\
               length block = length (range 0 n) /\
               st'.1 = st.1 + Z.of_nat (length block))).
  { apply (returns_for_each
             (fun done st' => exists block,
                st'.2 = st.2 ++ block /\
                length block = length done /\
                st'.1 = st.1 + Z.of_nat (length block))).
    - exists []. rewrite app_nil_r. simpl. split_and!; [done | done | lia].
    - intros dn x rest s _ (block & Hs & Hlen & Hcnt).
      eapply returns_mono; [by apply item_body_step|].
      intros s' (Hcnt' & it & Hs'). exists (block ++ [it]).
      rewrite Hs', Hs, Hcnt', Hcnt, !length_app, Hlen, <- app_assoc.
      simpl. split_and!; [done | done | lia]. }
  destruct (Hloop w1) as (st' & w' & E & block & Hs & Hlen & Hcnt).
  exists st', w', block. split; [exact E|]. split; [exact Hs|].
  split; [|exact Hcnt].
  rewrite Hlen. unfold range. rewrite length_seqZ. lia.
Qed.

Lemma X16_one_order_appends_drawn_count_witness :
  exists st' w' block,
    order_items_body
      [ (<["product_id" := VInt 7]> (<["price" := VInt 10]> ∅) : dict) ]
      (<["order_id" := VInt 1]> ∅) (9001, []) world_count
    = Ok (st', w') /\
    st'.2 = [] ++ block /\
    Z.of_nat (length block) = 1 + 0 mod 5 /\
    st'.1 = 9001 + Z.of_nat (length block).
Proof.
  apply (X16_one_order_appends_drawn_count
           [ <["product_id" := VInt 7]> (<["price" := VInt 10]> ∅) ]
           (<["order_id" := VInt 1]> ∅) (9001, []) world_count).
  - discriminate.
  - constructor; [|constructor]. split.
    + exists (VInt 10). reflexivity.
    + exists (VInt 7). reflexivity.
  - exists (VInt 1). reflexivity.
Defined.

(** ** The summary line *)

(** X17. The text printed at the end reports 24 customers, 22 products
    and 29 orders, in this order, then the number of order items, which is
    between 29 and 145; each count is on a line of its own and an empty
    line follows. *)
Theorem X17_summary_line (w : World) :
  exists s w' n,
    generate w = Ok (s, w') /\
    n = Z.of_nat (length (sample_order_items_list s)) /\
    29 <= n <= 145 /\
    summary s =
      "customers: 24" +:+ newline +:+
      "products: 22" +:+ newline +:+
      "orders: 29" +:+ newline +:+
      "order_items: " +:+ str_of_int n +:+ newline +:+ newline.
Proof.
  destruct (generate_total w) as (s & w' & E & Hok).
  destruct (items_blocks s Hok) as (blocks & Hitems & Hbl & _).
  pose proof (item_count_block s blocks Hok Hitems Hbl) as Hcount.
  destruct (sum_item_counts _ _ _ Hcount) as [_ Hbounds].
  destruct Hok as (Hc & Hp & Ho & _).
  apply Forall2_range_length in Hc, Hp, Ho.
  rewrite Ho, <- Hitems in Hbounds. simpl in Hbounds.
  exists s, w', (Z.of_nat (length (sample_order_items_list s))).
  split; [exact E|]. split; [reflexivity|]. split; [lia|].
  unfold summary. rewrite Hc, Hp, Ho. reflexivity.
Qed.

(** ** Values survive a dump *)

(** X18. In a dump that succeeds, each object maps a key to the value the
    record has under it: an integer stays that integer, a string stays that
    string, and a datetime becomes its ISO-8601 text. *)
Theorem X18_dump_keeps_values (l : list dict) (js : list json) :
  json_dump l = Ok (JArr js) ->
  Forall2
    (fun d jd =>
       exists m,
         jd = JObj m /\
         forall k,
           match d !! k with
           | Some (VInt z) => m !! k = Some (JInt z)
           | Some (VStr s) => m !! k = Some (JStr s)
           | Some (VDatetime t) => m !! k = Some (JStr (isoformat t))
           | Some _ => is_Some (m !! k)
           | None => m !! k = None
           end)
    l js.
Proof.
  intros H. apply json_dump_records in H as (js' & [= <-] & Hrec).
  eapply Forall2_impl; [exact Hrec|].
  intros d jd Hd. apply json_encode_dict_fields in Hd as (m & -> & Hk).
  exists m. split; [reflexivity|]. intros k. specialize (Hk k).
  destruct (d !! k) as [v|]; [|exact Hk].
  destruct Hk as (jv & Hv & Hm).
  destruct v; cbn in Hv; try (injection Hv as <-; exact Hm);
    by eexists.
Qed.

Lemma X18_dump_keeps_values_witness :
  Forall2
    (fun d jd =>
       exists m,
         jd = JObj m /\
         forall k,
           match d !! k with
           | Some (VInt z) => m !! k = Some (JInt z)
           | Some (VStr s) => m !! k = Some (JStr s)
           | Some (VDatetime t) => m !! k = Some (JStr (isoformat t))
           | Some _ => is_Some (m !! k)
           | None => m !! k = None
           end)
    [ (<["when" := VDatetime base_date]> (<["id" := VInt 7]> ∅) : dict) ]
    [ JObj (<["when" := JStr "2024-01-15T10:00:00"]>
              (<["id" := JInt 7]> ∅)) ].
Proof.
  apply (X18_dump_keeps_values
           [ <["when" := VDatetime base_date]> (<["id" := VInt 7]> ∅) ]).
  vm_compute. reflexivity.
Defined.

(** ** Ranges of the values an item copies *)

(** X19. Every order item has an order_id in 5001..5029, a product_id in
    101..122 and a price in [30, 1200]: the ranges of the orders and of the
    products it was made from. *)
Theorem X19_item_value_ranges (w : World) :
  exists s w',
    generate w = Ok (s, w') /\
    Forall
      (fun it =>
         exists oid pid price,
           int_at "order_id" it = Some oid /\ 5001 <= oid <= 5029 /\
           int_at "product_id" it = Some pid /\ 101 <= pid <= 122 /\
           int_at "price" it = Some price /\ 30 <= price <= 1200)
      (sample_order_items_list s).
Proof.
  destruct (generate_total w) as (s & w' & E & Hok).
  exists s, w'. split; [exact E|].
  destruct (items_blocks s Hok) as (blocks & Hitems & _ & Hblocks).
  destruct Hok as (_ & Hp & Ho & _).
  pose proof (Forall2_range_length _ _ _ _ Hp) as Hplen.
  pose proof (Forall2_range_length _ _ _ _ Ho) as Holen.
  rewrite Hitems. apply Forall_concat. apply Forall_lookup_2.
  intros n b Hb.
  destruct (Forall2_lookup_r _ _ _ _ _ Hblocks Hb) as (o & Hon & _ & Hall).
  pose proof (Forall2_range_lookup _ _ _ _ Ho n o Hon) as [Hoid _].
  apply lookup_lt_Some in Hon. rewrite Holen in Hon.
  eapply Forall_impl; [exact Hall|].
  intros it (Hio & (p & Hin & Hipid & Hiprice) & _).
  apply list_elem_of_lookup_1 in Hin as [k Hpk].
  pose proof (Forall2_range_lookup _ _ _ _ Hp k p Hpk)
    as (Hpid & _ & _ & (price & Hprice & Hrange) & _).
  apply lookup_lt_Some in Hpk. rewrite Hplen in Hpk.
  exists (5001 + Z.of_nat n), (101 + Z.of_nat k), price.
  split_and!; try lia.
  - apply int_at_Some. by rewrite Hio.
  - apply int_at_Some. by rewrite Hipid.
  - apply int_at_Some. by rewrite Hiprice.
Qed.
